(** * cheatsheet-generator: layout-flow engine, parser and page estimator

    A shallow embedding of [cheatsheet_generator/generator.py] and
    [cheatsheet_generator/parser.py], with the properties the specification
    states about them.

    Conventions of the embedding:
    - a Python [dict] is an association list in insertion order
      ([OrderedDict.dict]);
    - Python [int] is [Z];
    - a Python exception is the [Raise] branch of a result type;
    - the layout arithmetic is given twice.  The module [Binary64] models
      it as the program computes it: floats are IEEE 754 binary64 numbers,
      with the rounding of every operation and the exceptions of
      conversion, division and [math.ceil].  The properties about the
      value of an estimate (the height formula, the routing of a section,
      the page count) are stated there.  Outside that module the same
      functions are read in exact arithmetic, a float standing for the
      rational it denotes; the properties stated on that reading are about
      order, structure and the parser, or say that they are exact. *)

From Stdlib Require Import List String Ascii Bool ZArith QArith Qround Lia.
From Stdlib Require Import DecimalString.
From Stdlib Require PrimFloat FloatOps SpecFloat FloatAxioms.

Set Warnings "-inexact-float".
Import ListNotations.

Local Open Scope string_scope.
Local Open Scope list_scope.

(* ================================================================= *)
(** ** Python exceptions as an error monad *)

Module Py.

Inductive exn : Type :=
| ValueError (msg : string)
| ZeroDivisionError
| AttributeError (msg : string).

Inductive result (A : Type) : Type :=
| Ok (a : A)
| Raise (e : exn).

Arguments Ok {A} a.
Arguments Raise {A} e.

Definition bind {A B : Type} (r : result A) (k : A -> result B) : result B :=
  match r with
  | Ok a => k a
  | Raise e => Raise e
  end.


(** A [for] loop whose body may raise: the accumulator is threaded through
    the items in order and the first exception ends the loop. *)
Fixpoint for_each {A S : Type} (body : S -> A -> result S)
         (items : list A) (s : S) : result S :=
  match items with
  | [] => Ok s
  | x :: rest => bind (body s x) (for_each body rest)
  end.

End Py.

Import Py.

Notation "x <- c1 ;; c2" := (Py.bind c1 (fun x => c2))
  (at level 61, c1 at next level, right associativity).

(* ================================================================= *)
(** ** Insertion-ordered dictionaries keyed by strings *)

Module OrderedDict.

Definition dict (V : Type) : Type := list (string * V).

Definition keys {V} (d : dict V) : list string := map fst d.
Definition values {V} (d : dict V) : list V := map snd d.
Definition items {V} (d : dict V) : list (string * V) := d.
Definition len {V} (d : dict V) : nat := List.length d.

Fixpoint get {V} (k : string) (d : dict V) : option V :=
  match d with
  | [] => None
  | (k', v) :: rest => if k =? k' then Some v else get k rest
  end.

Definition contains {V} (k : string) (d : dict V) : bool :=
  match get k d with Some _ => true | None => false end.

(** [d[k] = v]: an existing key keeps its position, a new key goes last. *)
Fixpoint set {V} (k : string) (v : V) (d : dict V) : dict V :=
  match d with
  | [] => [(k, v)]
  | (k', v') :: rest =>
      if k =? k' then (k', v) :: rest else (k', v') :: set k v rest
  end.

End OrderedDict.

Import OrderedDict.

(* ================================================================= *)
(** ** Data model *)

(** Modelled from the spec: the records of [cheatsheet_generator/models.py],
    which is not part of the available sources; the fields are those the
    generator, the parser and the tests read.  An entry: *)
Record Hotkey : Type := mkHotkey {
  key : string;
  description : string;
  section : string;
  subsection : string
}.

(** Modelled from the spec: the layout configuration of [models.py], with
    integer font sizes and column count and fractional lengths. *)
Record CheatSheetConfig : Type := {
  title : string;
  font_size : Z;
  header_font_size : Z;
  columns : Z;
  margin : Q;
  row_height : Q;
  section_spacing : Q;
  subsection_spacing : Q
}.

(** Modelled from the spec: the document of [models.py]. *)
Record CheatSheet : Type := {
  sheet_title : string;
  hotkeys : list Hotkey;
  config : CheatSheetConfig
}.

(** The reserved name of the bucket of entries without a subsection. *)
Definition General : string := "General".

(* ================================================================= *)
(** ** Height estimator: [PDFGenerator._estimate_section_height]

    The exact reading: the sum over the rationals, which the program's
    floats approximate.  The value the program computes is
    [Binary64._estimate_section_height]. *)

Local Open Scope Q_scope.

Definition len_hotkeys (hs : list Hotkey) : Q := inject_Z (Z.of_nat (List.length hs)).

(** Body of the loop over [subsections.items()]. *)
Definition height_step (cfg : CheatSheetConfig) (total_height : Q)
           (item : string * list Hotkey) : Q :=
  let '(subsection_name, hks) := item in
  let total_height :=
    if negb (subsection_name =? General)%string
    then total_height + inject_Z (font_size cfg + 8)
    else total_height in
  let total_height := total_height + len_hotkeys hks * row_height cfg in
  total_height + subsection_spacing cfg.

Definition _estimate_section_height (cfg : CheatSheetConfig)
           (subsections : dict (list Hotkey)) : Q :=
  let total_height := 0 in
  let total_height := total_height + inject_Z (header_font_size cfg + 15) in
  let total_height := fold_left (height_step cfg) (items subsections) total_height in
  let total_height := total_height + section_spacing cfg in
  total_height.

(** The formula of the specification, written as a sum of one term per
    subsection. *)
Definition subsection_term (cfg : CheatSheetConfig) (item : string * list Hotkey) : Q :=
  (if negb (fst item =? General)%string then inject_Z (font_size cfg) + 8 else 0)
  + len_hotkeys (snd item) * row_height cfg
  + subsection_spacing cfg.

Fixpoint Qsum (l : list Q) : Q :=
  match l with
  | [] => 0
  | x :: rest => x + Qsum rest
  end.

Definition spec_section_height (cfg : CheatSheetConfig)
           (subsections : dict (list Hotkey)) : Q :=
  (inject_Z (header_font_size cfg) + 15)
  + Qsum (map (subsection_term cfg) subsections)
  + section_spacing cfg.

(* ================================================================= *)
(** ** Python arithmetic used by the generator *)

Definition Qltb (x y : Q) : bool := negb (Qle_bool y x).

(** [x / y] on numbers: division by zero raises. *)
Definition truediv (x y : Q) : result Q :=
  if Qeq_bool y 0 then Raise ZeroDivisionError else Ok (x / y).

(** [reportlab.lib.pagesizes.landscape(A4)], in points: A4 is
    210 mm x 297 mm and one mm is 72 / 25.4 points.  These are the exact
    sizes; the doubles reportlab holds are [Binary64.page_width] and
    [Binary64.page_height]. *)
Definition mm : Q := 720 # 254.
Definition page_width : Q := 297 * mm.
Definition page_height : Q := 210 * mm.

(* ================================================================= *)
(** ** Content blocks handed to the renderer *)

Inductive style_name : Type :=
| style_title
| style_section_header
| style_subsection_header
| style_hotkey.

#[warnings="-register-all"] Inductive flowable : Type :=
| Paragraph (text : string) (style : style_name)
| Spacer (width height : Q)
| Table (data : list (list flowable)) (colWidths : list Q)
| KeepTogether (flowables : list flowable).

(** Atomic blocks are the [KeepTogether] ones; every other block may be
    split or separated from its neighbours by the renderer. *)
Definition is_atomic (b : flowable) : bool :=
  match b with KeepTogether _ => true | _ => false end.


(** [xml.sax.saxutils.escape] with its default entities. *)
Fixpoint escape (s : string) : string :=
  match s with
  | EmptyString => EmptyString
  | String c rest =>
      if Ascii.eqb c "&" then "&amp;" ++ escape rest
      else if Ascii.eqb c "<" then "&lt;" ++ escape rest
      else if Ascii.eqb c ">" then "&gt;" ++ escape rest
      else String c (escape rest)
  end.

(** [str.upper] on ASCII letters; other characters are kept. *)
Definition upper_ascii (c : ascii) : ascii :=
  let n := nat_of_ascii c in
  if (97 <=? n)%nat && (n <=? 122)%nat then ascii_of_nat (n - 32) else c.

Fixpoint upper (s : string) : string :=
  match s with
  | EmptyString => EmptyString
  | String c rest => String (upper_ascii c) (upper rest)
  end.

(* ================================================================= *)
(** ** Grouped view: [CheatSheet.get_sections] *)

(** Modelled from the spec: the [Hotkey] constructor of
    [cheatsheet_generator/models.py], which is not part of the available
    sources.  Key, description and section must be non-empty, construction
    fails otherwise; the message is the one [tests/test_models.py] matches.
    The subsection defaults to the empty string. *)
Definition new_Hotkey (key description section subsection : string)
  : result Hotkey :=
  if (key =? EmptyString) || (description =? EmptyString)
     || (section =? EmptyString)
  then Raise (ValueError "Key, description, and section are required")
  else Ok (mkHotkey key description section subsection).

(** Modelled from the spec: the constructor of [models.py] called without a
    subsection, as [tests/test_models.py] has it. *)
Definition new_Hotkey_default (key description section : string)
  : result Hotkey :=
  new_Hotkey key description section EmptyString.

(** Modelled from the spec: the bucket [get_sections] files an entry under,
    its subsection, or [General] when the subsection is empty. *)
Definition bucket_name (h : Hotkey) : string :=
  if subsection h =? EmptyString then General else subsection h.

Definition get_or {V} (k : string) (d : dict V) (default : V) : V :=
  match get k d with Some v => v | None => default end.

(** Modelled from the spec: one iteration of the loop of [get_sections],
    which creates the section and the bucket on first sight and appends the
    entry to its bucket. *)
Definition add_hotkey (sections : dict (dict (list Hotkey))) (h : Hotkey)
  : dict (dict (list Hotkey)) :=
  let sections :=
    if contains (section h) sections then sections
    else set (section h) [] sections in
  let subsections := get_or (section h) sections [] in
  let subsections :=
    if contains (bucket_name h) subsections then subsections
    else set (bucket_name h) [] subsections in
  let bucket := get_or (bucket_name h) subsections [] in
  set (section h) (set (bucket_name h) (bucket ++ [h]) subsections) sections.

(** Modelled from the spec: [CheatSheet.get_sections] of
    [cheatsheet_generator/models.py], which is not part of the available
    sources.  It groups the flat entry list into section -> subsection ->
    entries, dictionaries being filled in the order the entries come. *)
Definition get_sections (sheet : CheatSheet) : dict (dict (list Hotkey)) :=
  fold_left add_hotkey (hotkeys sheet) [].

(* ================================================================= *)
(** ** Layout: [PDFGenerator._calculate_layout] *)

Definition _calculate_layout (cfg : CheatSheetConfig) : result (Q * Q) :=
  let usable_width := page_width - 2 * margin cfg in
  let usable_height := page_height - 2 * margin cfg in
  let column_spacing := 15 in
  column_width <-
    truediv (usable_width - inject_Z (columns cfg - 1) * column_spacing)
            (inject_Z (columns cfg)) ;;
  Ok (column_width, usable_height).

(* ================================================================= *)
(** ** Tables: [PDFGenerator._create_hotkey_table] *)

Definition hotkey_row (h : Hotkey) : list flowable :=
  let escaped_key := escape (key h) in
  let escaped_desc := escape (description h) in
  let key_text :=
    ("<font name='Courier-Bold'>" ++ escaped_key ++ "</font>")%string in
  let desc_text := escaped_desc in
  [Paragraph key_text style_hotkey; Paragraph desc_text style_hotkey].

(** [None] is Python's [None]: no table for an empty list of hotkeys. *)
Definition _create_hotkey_table (cfg : CheatSheetConfig) (hks : list Hotkey)
  : result (option flowable) :=
  match hks with
  | [] => Ok None
  | _ =>
      layout <- _calculate_layout cfg ;;
      let column_width := fst layout in
      let data := map hotkey_row hks in
      let key_width := column_width * (35 # 100) in
      let desc_width := column_width * (65 # 100) in
      Ok (Some (Table data [key_width; desc_width]))
  end.

(* ================================================================= *)
(** ** Flow planner: [PDFGenerator._build_content] *)

Definition section_header_of (section_name : string) : flowable :=
  Paragraph ("<b>" ++ upper section_name ++ "</b>")%string style_section_header.

Definition subsection_header_of (subsection_name : string) : flowable :=
  Paragraph ("<i>" ++ subsection_name ++ "</i>")%string style_subsection_header.

(** Body of the first loop over [subsections.items()], which fills
    [section_content]. *)
Definition content_step (cfg : CheatSheetConfig) (section_content : list flowable)
           (item : string * list Hotkey) : result (list flowable) :=
  let '(subsection_name, hks) := item in
  let section_content :=
    if negb (subsection_name =? General)%string
    then section_content ++ [subsection_header_of subsection_name]
    else section_content in
  table <- _create_hotkey_table cfg hks ;;
  match table with
  | Some t => Ok (section_content ++ [t; Spacer 1 (subsection_spacing cfg)])
  | None => Ok section_content
  end.

Definition build_section_content (cfg : CheatSheetConfig) (section_header : flowable)
           (subsections : dict (list Hotkey)) : result (list flowable) :=
  for_each (content_step cfg) (items subsections) [section_header; Spacer 1 3].

(** Body of the [enumerate] loop of the [section_height > 200] branch; the
    state is the index [i] and the accumulating [section_items]. *)
Definition large_step (cfg : CheatSheetConfig) (section_header : flowable)
           (st : nat * list flowable) (item : string * list Hotkey)
  : result (nat * list flowable) :=
  let '(i, section_items) := st in
  let '(subsection_name, hks) := item in
  let subsection_content :=
    if (i =? 0)%nat then [section_header; Spacer 1 3] else [] in
  let subsection_content :=
    if negb (subsection_name =? General)%string
    then subsection_content ++ [subsection_header_of subsection_name]
    else subsection_content in
  table <- _create_hotkey_table cfg hks ;;
  let subsection_content :=
    match table with
    | Some t => subsection_content ++ [t; Spacer 1 (subsection_spacing cfg)]
    | None => subsection_content
    end in
  let section_items :=
    if (0 <? List.length subsection_content)%nat
    then section_items ++ [KeepTogether subsection_content]
    else section_items in
  Ok (S i, section_items).

(** Body of the loop over [sections.items()]. *)
Definition section_step (cfg : CheatSheetConfig) (section_items : list flowable)
           (item : string * dict (list Hotkey)) : result (list flowable) :=
  let '(section_name, subsections) := item in
  let section_height := _estimate_section_height cfg subsections in
  let section_header := section_header_of section_name in
  section_content <- build_section_content cfg section_header subsections ;;
  section_items <-
    (if Qltb 200 section_height then
       st <- for_each (large_step cfg section_header) (items subsections)
                      (0%nat, section_items) ;;
       Ok (snd st)
     else if Qltb section_height 100 then
       Ok (section_items ++ [KeepTogether section_content])
     else
       Ok (section_items ++ section_content)) ;;
  Ok (section_items ++ [Spacer 1 (section_spacing cfg)]).

Definition _build_content (sheet : CheatSheet) : result (list flowable) :=
  let cfg := config sheet in
  let content := [Paragraph (sheet_title sheet) style_title; Spacer 1 12] in
  let sections := get_sections sheet in
  section_items <- for_each (section_step cfg) (items sections) [] ;;
  Ok (content ++ section_items).

(** The blocks one section adds to the stream. *)
Definition section_blocks (cfg : CheatSheetConfig) (section_name : string)
           (subsections : dict (list Hotkey)) : result (list flowable) :=
  section_step cfg [] (section_name, subsections).

(* ================================================================= *)
(** ** Page estimator: [PDFGenerator.estimate_pages]

    The exact reading, with [math.ceil] as the ceiling of a rational: it
    has no infinite or undefined quotient, and so none of the exceptions
    [math.ceil] raises on them.  The page count the program computes, and
    its exceptions, are [Binary64.estimate_pages]. *)

Definition Zsum (l : list Z) : Z := fold_left Z.add l 0%Z.

Definition of_len (n : nat) : Z := Z.of_nat n.

Definition estimate_pages (sheet : CheatSheet) : result Z :=
  let cfg := config sheet in
  layout <- _calculate_layout cfg ;;
  let usable_height := snd layout in
  let total_hotkeys := of_len (List.length (hotkeys sheet)) in
  let sections := get_sections sheet in
  let title_height := 30%Z in
  let section_headers := (of_len (len sections) * 15)%Z in
  let subsection_headers :=
    (Zsum (map (fun subsections => of_len (len subsections)) (values sections))
     * 12)%Z in
  let hotkey_height := inject_Z total_hotkeys * row_height cfg in
  let spacing := inject_Z (of_len (len sections)) * section_spacing cfg in
  let total_height :=
    inject_Z (title_height + section_headers + subsection_headers)
    + hotkey_height + spacing in
  effective_height <- truediv total_height (inject_Z (columns cfg)) ;;
  ratio <- truediv effective_height usable_height ;;
  let pages := Qceiling ratio in
  Ok (Z.max 1 pages).

(* ================================================================= *)
(** ** Parsed YAML documents *)

(** What [yaml.safe_load] hands to the parser, typed after the input
    interface: a value under a section is either a scalar description or a
    nested mapping from keys to descriptions; a section value is either a
    mapping or something else, here a scalar, for which only the outcome of
    [isinstance(_, dict)] matters. *)
Inductive subsection_value : Type :=
| Description (text : string)
| SubsectionDict (pairs : dict string).

Inductive section_value : Type :=
| SectionDict (entries : dict subsection_value)
| SectionOther (scalar : string).

Inductive sections_value : Type :=
| SectionsDict (sections : dict section_value)
| SectionsOther (scalar : string).

Section Parser.

(** The value under the [config] key and [CheatSheetConfig.from_dict],
    which belongs to the unavailable [models.py]; the argument is [None]
    when the key is absent and the default [{}] is used. *)
Variable ConfigData : Type.
Variable from_dict : option ConfigData -> CheatSheetConfig.

Inductive yaml_data : Type :=
| DataDict (title : option string) (config_data : option ConfigData)
           (sections : option sections_value)
| DataOther (scalar : string).

(** What opening and loading the file gives. *)
Inductive load_result : Type :=
| YAMLError (e : string)
| FileNotFoundError
| Loaded (data : yaml_data).

Definition set_title (cfg : CheatSheetConfig) (t : string) : CheatSheetConfig :=
  {| title := t;
     font_size := font_size cfg;
     header_font_size := header_font_size cfg;
     columns := columns cfg;
     margin := margin cfg;
     row_height := row_height cfg;
     section_spacing := section_spacing cfg;
     subsection_spacing := subsection_spacing cfg |}.

(** Body of the innermost loop, over the pairs of a named subsection. *)
Definition pair_step (section_name subsection_name : string)
           (hks : list Hotkey) (item : string * string) : result (list Hotkey) :=
  let '(key, description) := item in
  h <- new_Hotkey key description section_name subsection_name ;;
  Ok (hks ++ [h]).

(** Body of the loop over [section_data.items()]. *)
Definition subsection_step (section_name : string) (hks : list Hotkey)
           (item : string * subsection_value) : result (list Hotkey) :=
  let '(subsection_name, subsection_data) := item in
  match subsection_data with
  | SubsectionDict pairs =>
      for_each (pair_step section_name subsection_name) (items pairs) hks
  | Description text =>
      h <- new_Hotkey_default subsection_name text section_name ;;
      Ok (hks ++ [h])
  end.

(** Body of the loop over [sections_data.items()]; a value that is not a
    mapping is skipped by [continue]. *)
Definition section_parse_step (hks : list Hotkey)
           (item : string * section_value) : result (list Hotkey) :=
  let '(section_name, section_data) := item in
  match section_data with
  | SectionOther _ => Ok hks
  | SectionDict entries =>
      for_each (subsection_step section_name) (items entries) hks
  end.

Definition parse_dict (data : yaml_data) : result CheatSheet :=
  match data with
  | DataOther _ => Raise (ValueError "YAML data must be a dictionary")
  | DataDict title config_data sections =>
      let title :=
        match title with Some t => t | None => "Hotkey Cheat Sheet" end in
      let config := from_dict config_data in
      let config := set_title config title in
      let sections_data :=
        match sections with Some v => v | None => SectionsDict [] end in
      match sections_data with
      | SectionsOther _ =>
          Raise (AttributeError "'str' object has no attribute 'items'")
      | SectionsDict sections =>
          hks <- for_each section_parse_step (items sections) [] ;;
          Ok {| sheet_title := title; hotkeys := hks; config := config |}
      end
  end.

(** Body of the loop of [validate_yaml]. *)
Definition validate_step (errors : list string)
           (item : string * section_value) : list string :=
  let '(section_name, section_data) := item in
  match section_data with
  | SectionOther _ =>
      errors ++ [("Section '" ++ section_name ++ "' must be a dictionary")%string]
  | SectionDict [] =>
      errors ++ [("Section '" ++ section_name ++ "' is empty")%string]
  | SectionDict _ => errors
  end.

Definition validate_yaml (file_path : string) (loaded : load_result)
  : list string :=
  match loaded with
  | YAMLError e => [("Invalid YAML syntax: " ++ e)%string]
  | FileNotFoundError => [("File not found: " ++ file_path)%string]
  | Loaded (DataOther _) => ["Root element must be a dictionary"]
  | Loaded (DataDict _ _ None) => ["Missing 'sections' key"]
  | Loaded (DataDict _ _ (Some (SectionsOther _))) =>
      ["'sections' must be a dictionary"]
  | Loaded (DataDict _ _ (Some (SectionsDict sections))) =>
      fold_left validate_step (items sections) []
  end.

End Parser.

Arguments DataDict {ConfigData} title config_data sections.
Arguments DataOther {ConfigData} scalar.
Arguments YAMLError {ConfigData} e.
Arguments FileNotFoundError {ConfigData}.
Arguments Loaded {ConfigData} data.
Arguments parse_dict {ConfigData} from_dict data.
Arguments validate_yaml {ConfigData} file_path loaded.

(* ================================================================= *)
(** ** Notions the specification is stated with *)

(** First-seen order: the distinct elements of a list, each at the place of
    its first occurrence. *)
Fixpoint first_seen (l : list string) : list string :=
  match l with
  | [] => []
  | x :: rest => x :: filter (fun y => negb (y =? x)%string) (first_seen rest)
  end.

Definition in_section (s : string) (h : Hotkey) : bool := (section h =? s)%string.
Definition in_bucket (b : string) (h : Hotkey) : bool := (bucket_name h =? b)%string.

(** The subsections of one section, as the specification describes them:
    buckets in first-seen order, each holding its entries in input order. *)
Definition spec_subsections (hs : list Hotkey) : dict (list Hotkey) :=
  map (fun b => (b, filter (in_bucket b) hs)) (first_seen (map bucket_name hs)).

(** The grouped view as the specification describes it. *)
Definition spec_group (hs : list Hotkey) : dict (dict (list Hotkey)) :=
  map (fun s => (s, spec_subsections (filter (in_section s) hs)))
      (first_seen (map section hs)).

(** The page formula of the specification. *)
Definition spec_total_height (cfg : CheatSheetConfig)
           (n_sections n_subsections n_entries : nat) : Q :=
  30 + 15 * inject_Z (Z.of_nat n_sections)
  + 12 * inject_Z (Z.of_nat n_subsections)
  + inject_Z (Z.of_nat n_entries) * row_height cfg
  + inject_Z (Z.of_nat n_sections) * section_spacing cfg.


Definition count_subsections (sections : dict (dict (list Hotkey))) : nat :=
  list_sum (map (fun item => List.length (snd item)) sections).

(** A section the validator rejects: its value is not a mapping, or it is an
    empty mapping. *)
Definition invalid_section (item : string * section_value) : bool :=
  match snd item with
  | SectionOther _ => true
  | SectionDict [] => true
  | SectionDict _ => false
  end.

Definition section_message (item : string * section_value) : string :=
  match snd item with
  | SectionOther _ => "Section '" ++ fst item ++ "' must be a dictionary"
  | SectionDict _ => "Section '" ++ fst item ++ "' is empty"
  end%string.


(** The header an iteration of the planner's loops emits for a subsection:
    none for the one named General. *)
Definition optional_header (subsection_name : string) : list flowable :=
  if negb (subsection_name =? General)%string
  then [subsection_header_of subsection_name]
  else [].




Definition has_entries (item : string * list Hotkey) : Prop := snd item <> [].

(** The grouping loop over an arbitrary key: file [x] under [kf x], creating
    the entry with [empty] on first sight. *)
Definition group_add {A V : Type} (kf : A -> string) (empty : V)
           (upd : V -> A -> V) (d : dict V) (x : A) : dict V :=
  let d := if contains (kf x) d then d else set (kf x) empty d in
  let v := get_or (kf x) d empty in
  set (kf x) (upd v x) d.

Definition group_spec {A V : Type} (kf : A -> string) (F : list A -> V)
           (l : list A) : dict V :=
  map (fun k => (k, F (filter (fun a => (kf a =? k)%string) l)))
      (first_seen (map kf l)).

(* ================================================================= *)
(** ** Sample data *)

Definition sample_config : CheatSheetConfig :=
  {| title := "Hotkey Cheat Sheet";
     font_size := 7;
     header_font_size := 12;
     columns := 5;
     margin := 15;
     row_height := 10;
     section_spacing := 8;
     subsection_spacing := 4 |}.



Definition hk (k d s sub : string) : Hotkey := mkHotkey k d s sub.

Definition sample_hotkeys : list Hotkey :=
  [ hk "Ctrl+C" "Copy" "Edit" "Clipboard";
    hk "Ctrl+V" "Paste" "Edit" "Clipboard";
    hk "Ctrl+Z" "Undo" "Edit" EmptyString;
    hk "Ctrl+S" "Save" "File" EmptyString ].


Definition sample_sheet : CheatSheet :=
  {| sheet_title := "Test"; hotkeys := sample_hotkeys; config := sample_config |}.
(** A document with a named subsection, scalar entries directly under their
    sections, and sections the validator rejects. *)
Definition sample_sections : dict section_value :=
  [ ("Edit", SectionDict [ ("Clipboard", SubsectionDict [ ("Ctrl+C", "Copy");
                                                          ("Ctrl+V", "Paste") ]);
                           ("Ctrl+Z", Description "Undo") ]);
    ("Broken", SectionOther "not a mapping");
    ("File", SectionDict [ ("Ctrl+S", Description "Save") ]);
    ("Hollow", SectionDict []) ].

Definition sample_from_dict (_ : option unit) : CheatSheetConfig := sample_config.

Definition sample_data : yaml_data unit :=
  DataDict (Some "Test") None (Some (SectionsDict sample_sections)).

(* ================================================================= *)
(** ** Page template: [PDFGenerator._create_multicolumn_doc] *)

(** The arguments the generator gives to reportlab's [Frame],
    [PageTemplate] and [BaseDocTemplate]. *)
Record Frame : Type := {
  x1 : Q;
  y1 : Q;
  frame_width : Q;
  frame_height : Q;
  leftPadding : Q;
  rightPadding : Q;
  topPadding : Q;
  bottomPadding : Q;
  showBoundary : Z
}.

Record PageTemplate : Type := {
  template_id : string;
  frames : list Frame
}.

Record BaseDocTemplate : Type := {
  filename : string;
  pagesize : Q * Q;
  topMargin : Q;
  bottomMargin : Q;
  leftMargin : Q;
  rightMargin : Q;
  pageTemplates : list PageTemplate
}.

Definition addPageTemplates (doc : BaseDocTemplate) (templates : list PageTemplate)
  : BaseDocTemplate :=
  {| filename := filename doc;
     pagesize := pagesize doc;
     topMargin := topMargin doc;
     bottomMargin := bottomMargin doc;
     leftMargin := leftMargin doc;
     rightMargin := rightMargin doc;
     pageTemplates := pageTemplates doc ++ templates |}.

(** [range(n)]: empty when [n] is not positive. *)
Definition range (n : Z) : list Z := map Z.of_nat (seq 0 (Z.to_nat n)).

(** Body of the loop over [range(self.config.columns)]. *)
Definition frame_step (cfg : CheatSheetConfig) (width height : Q)
           (frames : list Frame) (i : Z) : list Frame :=
  let x := margin cfg + inject_Z i * (width + 15) in
  let frame :=
    {| x1 := x;
       y1 := margin cfg;
       frame_width := width;
       frame_height := height;
       leftPadding := 3;
       rightPadding := 3;
       topPadding := 6;
       bottomPadding := 6;
       showBoundary := 0 |} in
  frames ++ [frame].

Definition _create_multicolumn_doc (cfg : CheatSheetConfig) (output_path : string)
  : result BaseDocTemplate :=
  let doc :=
    {| filename := output_path;
       pagesize := (page_width, page_height);
       topMargin := margin cfg;
       bottomMargin := margin cfg;
       leftMargin := margin cfg;
       rightMargin := margin cfg;
       pageTemplates := [] |} in
  width <-
    truediv (page_width - 2 * margin cfg - inject_Z (columns cfg - 1) * 15)
            (inject_Z (columns cfg)) ;;
  let height := page_height - 2 * margin cfg in
  let frames := fold_left (frame_step cfg width height) (range (columns cfg)) [] in
  let template := {| template_id := "multicolumn"; frames := frames |} in
  Ok (addPageTemplates doc [template]).

(* ================================================================= *)
(** ** Command line: [cli.main], [YAMLParser.parse_file], [PDFGenerator.generate] *)

(** Decimal text of an integer, as an f-string prints it. *)
Definition str_of_Z (z : Z) : string := NilZero.string_of_int (Z.to_int z).

(** What the program does to the outside: a line written by [click.echo]
    (on standard error when [err] holds) and a call of the renderer's
    [doc.build]. *)
Inductive event : Type :=
| Echo (message : string) (err : bool)
| CallBuild (doc : BaseDocTemplate) (content : list flowable).

(** The exceptions that reach the handler of [main]: those of the
    generator and the parser, and those of the libraries at the boundary. *)
Inductive io_exn : Type :=
| CoreError (e : exn)
| LoadYAMLError (e : string)
| LoadFileNotFoundError (file_path : string)
| BuildError (e : string).

(** How a computation inside [main] ends: normally, by [sys.exit], or by an
    exception. *)
Inductive control (A : Type) : Type :=
| Normal (a : A)
| Exit (code : Z)
| Throw (e : io_exn).

Arguments Normal {A} a.
Arguments Exit {A} code.
Arguments Throw {A} e.

Definition io (A : Type) : Type := list event * control A.

Definition io_bind {A B : Type} (c : io A) (k : A -> io B) : io B :=
  match c with
  | (events, Normal a) => let '(events', r) := k a in (events ++ events', r)
  | (events, Exit code) => (events, Exit code)
  | (events, Throw e) => (events, Throw e)
  end.

Notation "x <-- c1 ;;; c2" := (io_bind c1 (fun x => c2))
  (at level 61, c1 at next level, right associativity).

Definition io_ret {A : Type} (a : A) : io A := ([], Normal a).

Definition lift {A : Type} (r : result A) : io A :=
  match r with
  | Ok a => ([], Normal a)
  | Raise e => ([], Throw (CoreError e))
  end.

Definition echo (message : string) (err : bool) : io unit :=
  ([Echo message err], Normal tt).

Definition sys_exit {A : Type} (code : Z) : io A := ([], Exit code).

(** A [for] loop of calls that cannot fail. *)
Fixpoint echo_each (messages : list string) (err : bool) : io unit :=
  match messages with
  | [] => io_ret tt
  | m :: rest => _ <-- echo m err ;;; echo_each rest err
  end.

Section CommandLine.

Variable ConfigData : Type.
Variable from_dict : option ConfigData -> CheatSheetConfig.

(** The libraries at the boundary: the text of an exception, as [str(e)]
    gives it, [Path.with_suffix], and the outcome of the renderer's
    [doc.build], [None] when it returns and the exception when it raises. *)
Variable str_exn : io_exn -> string.
Variable with_suffix : string -> string -> string.
Variable doc_build : BaseDocTemplate -> list flowable -> option io_exn.

(** [parse_file]: the exceptions of [open] and [yaml.safe_load] are not
    caught here. *)
Definition parse_file (file_path : string) (loaded : load_result ConfigData)
  : io CheatSheet :=
  match loaded with
  | YAMLError e => ([], Throw (LoadYAMLError e))
  | FileNotFoundError => ([], Throw (LoadFileNotFoundError file_path))
  | Loaded data => lift (parse_dict from_dict data)
  end.

Definition build (doc : BaseDocTemplate) (content : list flowable) : io unit :=
  ([CallBuild doc content],
   match doc_build doc content with
   | None => Normal tt
   | Some e => Throw e
   end).

Definition generate (sheet : CheatSheet) (output_path : string) : io unit :=
  doc <-- lift (_create_multicolumn_doc (config sheet) output_path) ;;;
  content <-- lift (_build_content sheet) ;;;
  build doc content.

(** The body of the [try] block of [main]; [loaded] is what opening and
    loading [yaml_file] gives, at validation and again at parsing. *)
Definition main_try (yaml_file : string) (loaded : load_result ConfigData)
           (output : option string) (validate estimate_pages_opt : bool)
  : io unit :=
  let errors := validate_yaml yaml_file loaded in
  match errors with
  | _ :: _ =>
      _ <-- echo "YAML validation errors:" true ;;;
      _ <-- echo_each (map (fun error => "  - " ++ error)%string errors) true ;;;
      sys_exit 1
  | [] =>
      if validate then echo "✓ YAML file is valid" false
      else
        cheat_sheet <-- parse_file yaml_file loaded ;;;
        _ <-- echo ("Parsed "
                    ++ str_of_Z (Z.of_nat (List.length (hotkeys cheat_sheet)))
                    ++ " hotkeys from " ++ yaml_file)%string false ;;;
        if estimate_pages_opt then
          pages <-- lift (estimate_pages cheat_sheet) ;;;
          echo ("Estimated pages: " ++ str_of_Z pages)%string false
        else
          let output :=
            match output with
            | None => with_suffix yaml_file ".pdf"
            | Some path => path
            end in
          _ <-- generate cheat_sheet output ;;;
          pages <-- lift (estimate_pages cheat_sheet) ;;;
          _ <-- echo ("✓ Generated cheat sheet: " ++ output)%string false ;;;
          _ <-- echo ("  - Title: " ++ sheet_title cheat_sheet)%string false ;;;
          _ <-- echo ("  - Hotkeys: "
                      ++ str_of_Z (Z.of_nat (List.length (hotkeys cheat_sheet))))%string
                     false ;;;
          echo ("  - Estimated pages: " ++ str_of_Z pages)%string false
  end.

(** [main]: the events of the run and the exit status of the process; the
    handler reports any exception and exits with 1. *)
Definition main (yaml_file : string) (loaded : load_result ConfigData)
           (output : option string) (validate estimate_pages_opt : bool)
  : list event * Z :=
  match main_try yaml_file loaded output validate estimate_pages_opt with
  | (events, Normal _) => (events, 0%Z)
  | (events, Exit code) => (events, code)
  | (events, Throw e) =>
      (events ++ [Echo ("Error: " ++ str_exn e)%string true], 1%Z)
  end.

End CommandLine.

Arguments parse_file {ConfigData} from_dict file_path loaded.
Arguments main {ConfigData} from_dict str_exn with_suffix doc_build
          yaml_file loaded output validate estimate_pages_opt.
Arguments main_try {ConfigData} from_dict with_suffix doc_build
          yaml_file loaded output validate estimate_pages_opt.

(* ================================================================= *)
(** ** Notions the further properties are stated with *)

(** The entries a document describes, in document order. *)
Definition entries_of_subsection (section_name : string)
           (item : string * subsection_value) : list Hotkey :=
  match snd item with
  | Description text => [mkHotkey (fst item) text section_name EmptyString]
  | SubsectionDict pairs =>
      map (fun pair => mkHotkey (fst pair) (snd pair) section_name (fst item)) pairs
  end.

Definition entries_of_section (item : string * section_value) : list Hotkey :=
  match snd item with
  | SectionDict entries => flat_map (entries_of_subsection (fst item)) entries
  | SectionOther _ => []
  end.

Definition document_entries (sections : dict section_value) : list Hotkey :=
  flat_map entries_of_section sections.

(** An entry the constructor accepts. *)
Definition valid_entry (h : Hotkey) : bool :=
  negb ((key h =? EmptyString)%string || (description h =? EmptyString)%string
        || (section h =? EmptyString)%string).

Definition required_fields_error : exn :=
  ValueError "Key, description, and section are required".

(** The blocks a block stands for once the atomic wrappers are opened, and
    the table rows among them. *)
Definition unwrap (b : flowable) : list flowable :=
  match b with
  | KeepTogether flowables => flowables
  | _ => [b]
  end.

Definition table_rows (b : flowable) : list (list flowable) :=
  match b with
  | Table data _ => data
  | _ => []
  end.






(** A document the validator accepts although one of its entries has an
    empty description. *)
Definition blank_description_data : yaml_data unit :=
  DataDict (Some "Test") None
           (Some (SectionsDict
                    [("Edit", SectionDict [("Ctrl+C", Description EmptyString)])])).


(** The sections of a document whose value is a mapping, and the entries
    they describe, in document order. *)
Definition mapping_sections (sections : dict section_value)
  : list (string * dict subsection_value) :=
  flat_map (fun item =>
              match snd item with
              | SectionDict entries => [(fst item, entries)]
              | SectionOther _ => []
              end)
           sections.

Definition well_formed_entries (sections : dict section_value) : list Hotkey :=
  flat_map (fun s => flat_map (entries_of_subsection (fst s)) (snd s))
           (mapping_sections sections).

(* ================================================================= *)
(** ** The layout arithmetic in binary64

    Where a property depends on the value the program computes (the height
    a section is routed on, the page count), the arithmetic is modelled as
    Python does it: [int] is [Z], [float] is an IEEE 754 binary64 number,
    an [int] operand of a mixed operation is first converted to [float],
    and the exceptions of conversion, division and [math.ceil] are results.
    The configuration has the types the data model gives it. *)

Module Binary64.

Import PrimFloat.
Local Open Scope Z_scope.

Inductive exn : Type :=
| ZeroDivisionError
| OverflowError
| ValueError.

Inductive result (A : Type) : Type :=
| Ok (a : A)
| Raise (e : exn).

Arguments Ok {A} a.
Arguments Raise {A} e.

Definition bind {A B : Type} (r : result A) (k : A -> result B) : result B :=
  match r with
  | Ok a => k a
  | Raise e => Raise e
  end.

Notation "x <~ c1 ;; c2" := (bind c1 (fun x => c2))
  (at level 61, c1 at next level, right associativity).

Fixpoint for_each {A S : Type} (body : S -> A -> result S)
         (items : list A) (s : S) : result S :=
  match items with
  | [] => Ok s
  | x :: rest => bind (body s x) (for_each body rest)
  end.

(** *** Numbers *)

Inductive number : Type :=
| Int (z : Z)
| Float (f : float).

(** The binary64 number nearest to an integer, ties to even. *)
Definition nearest (z : Z) : float :=
  FloatOps.SF2Prim (SpecFloat.binary_normalize FloatOps.prec FloatOps.emax z 0 false).

(** From this magnitude on, the nearest binary64 number would be 2^1024. *)
Definition overflow_threshold : Z := 2 ^ 1024 - 2 ^ 970.

Definition converts (z : Z) : bool := Z.abs z <? overflow_threshold.

(** The conversion Python applies to an [int] operand next to a [float]:
    [OverflowError] when the integer is too large. *)
Definition float_of_int (z : Z) : result float :=
  if converts z then Ok (nearest z) else Raise OverflowError.

Definition to_float (x : number) : result float :=
  match x with
  | Int z => float_of_int z
  | Float f => Ok f
  end.

(** [x + y] and [x * y]: exact on two integers, binary64 otherwise. *)
Definition num_add (x y : number) : result number :=
  match x, y with
  | Int a, Int b => Ok (Int (a + b))
  | _, _ => a <~ to_float x ;; b <~ to_float y ;; Ok (Float (a + b)%float)
  end.

Definition num_mul (x y : number) : result number :=
  match x, y with
  | Int a, Int b => Ok (Int (a * b))
  | _, _ => a <~ to_float x ;; b <~ to_float y ;; Ok (Float (a * b)%float)
  end.

(** [a / b] on two floats: a zero divisor, of either sign, raises. *)
Definition fdiv (a b : float) : result float :=
  if (b =? 0)%float then Raise ZeroDivisionError else Ok (a / b)%float.

(** [a / z] for a float and an integer: the integer is converted, and the
    converted value is zero exactly when the integer is. *)
Definition fdiv_int (a : float) (z : Z) : result float :=
  c <~ float_of_int z ;;
  if z =? 0 then Raise ZeroDivisionError else Ok (a / c)%float.

(** The numerator of the exact value of a finite number with mantissa [m]
    and sign [s]. *)
Definition signed (s : bool) (m : positive) : Z := if s then Z.neg m else Z.pos m.

(** Exact comparison of a float with an integer, as Python compares them;
    [None] for NaN, which compares false with everything. *)
Definition float_compare_int (f : float) (k : Z) : option comparison :=
  match FloatOps.Prim2SF f with
  | SpecFloat.S754_nan => None
  | SpecFloat.S754_infinity s => Some (if s then Lt else Gt)
  | SpecFloat.S754_zero _ => Some (0 ?= k)
  | SpecFloat.S754_finite s m e =>
      Some (if 0 <=? e then signed s m * 2 ^ e ?= k
            else signed s m ?= k * 2 ^ (- e))
  end.

(** [x > k] and [x < k] for an integer literal [k]. *)
Definition num_gt (x : number) (k : Z) : bool :=
  match x with
  | Int a => k <? a
  | Float f =>
      match float_compare_int f k with Some Gt => true | _ => false end
  end.

Definition num_lt (x : number) (k : Z) : bool :=
  match x with
  | Int a => a <? k
  | Float f =>
      match float_compare_int f k with Some Lt => true | _ => false end
  end.

(** Neither infinite nor NaN. *)
Definition finite (f : float) : bool :=
  match FloatOps.Prim2SF f with
  | SpecFloat.S754_nan | SpecFloat.S754_infinity _ => false
  | _ => true
  end.

(** [math.ceil]: [ValueError] on NaN, [OverflowError] on an infinity. *)
Definition ceil (f : float) : result Z :=
  match FloatOps.Prim2SF f with
  | SpecFloat.S754_nan => Raise ValueError
  | SpecFloat.S754_infinity _ => Raise OverflowError
  | SpecFloat.S754_zero _ => Ok 0
  | SpecFloat.S754_finite s m e =>
      Ok (if 0 <=? e then signed s m * 2 ^ e
          else - (- signed s m / 2 ^ (- e)))
  end.

(** *** Data *)

(** Modelled from the spec: the layout configuration of [models.py], the
    sizes and spacings being floats.  A number the YAML document gives as
    an integer is read as the float of that value. *)
Record CheatSheetConfig : Type := {
  title : string;
  font_size : Z;
  header_font_size : Z;
  columns : Z;
  margin : float;
  row_height : float;
  section_spacing : float;
  subsection_spacing : float
}.

(** Modelled from the spec: the document of [models.py]. *)
Record CheatSheet : Type := {
  sheet_title : string;
  hotkeys : list Hotkey;
  config : CheatSheetConfig
}.

(** Modelled from the spec: the grouped view, the grouping loop of
    [get_sections] above on the entries of the sheet. *)
Definition get_sections (sheet : CheatSheet) : dict (dict (list Hotkey)) :=
  fold_left add_hotkey (hotkeys sheet) [].

(** *** Page geometry: [reportlab.lib.units] and [reportlab.lib.pagesizes] *)

Definition inch : float := 72.
Definition cm : float := inch / 2.54.
Definition mm : float := cm * 0.1.
Definition A4 : float * float := ((210 * mm)%float, (297 * mm)%float).

Definition landscape (pagesize : float * float) : float * float :=
  let '(a, b) := pagesize in
  if (a <? b)%float then (b, a) else (a, b).

Definition page_width : float := fst (landscape A4).
Definition page_height : float := snd (landscape A4).

(** *** Height estimator: [PDFGenerator._estimate_section_height] *)

Definition len_of (hks : list Hotkey) : Z := Z.of_nat (List.length hks).

(** Body of the loop over [subsections.items()]. *)
Definition height_step (cfg : CheatSheetConfig) (total_height : number)
           (item : string * list Hotkey) : result number :=
  let '(subsection_name, hks) := item in
  total_height <~
    (if negb (subsection_name =? General)%string
     then num_add total_height (Int (font_size cfg + 8))
     else Ok total_height) ;;
  rows <~ num_mul (Int (len_of hks)) (Float (row_height cfg)) ;;
  total_height <~ num_add total_height rows ;;
  num_add total_height (Float (subsection_spacing cfg)).

Definition _estimate_section_height (cfg : CheatSheetConfig)
           (subsections : dict (list Hotkey)) : result number :=
  let total_height := Int 0 in
  total_height <~ num_add total_height (Int (header_font_size cfg + 15)) ;;
  total_height <~ for_each (height_step cfg) (items subsections) total_height ;;
  num_add total_height (Float (section_spacing cfg)).

(** *** Layout and tables *)

Definition _calculate_layout (cfg : CheatSheetConfig) : result (float * float) :=
  let usable_width := (page_width - 2 * margin cfg)%float in
  let usable_height := (page_height - 2 * margin cfg)%float in
  let column_spacing := 15 in
  gaps <~ float_of_int ((columns cfg - 1) * column_spacing) ;;
  column_width <~ fdiv_int (usable_width - gaps)%float (columns cfg) ;;
  Ok (column_width, usable_height).

#[warnings="-register-all"] Inductive flowable : Type :=
| Paragraph (text : string) (style : style_name)
| Spacer (width height : number)
| Table (data : list (list flowable)) (colWidths : list float)
| KeepTogether (flowables : list flowable).

Definition is_atomic (b : flowable) : bool :=
  match b with KeepTogether _ => true | _ => false end.

(** What the planner takes from outside the sources: [str.upper], and
    whether reportlab's paragraph parser accepts a markup text.  The
    constructor of [Paragraph] parses its text and raises [ValueError] on a
    text it does not accept; [Spacer], [Table] and [KeepTogether] are built
    as they are. *)
Class Externals : Type := {
  str_upper : string -> string;
  markup_ok : string -> bool
}.

Section Planner.

Context {ext : Externals}.

(** [Paragraph(text, style)]. *)
Definition paragraph (text : string) (style : style_name) : result flowable :=
  if markup_ok text then Ok (Paragraph text style) else Raise ValueError.

(** The markup texts of the planner. *)
Definition key_text (h : Hotkey) : string :=
  let escaped_key := escape (key h) in
  ("<font name='Courier-Bold'>" ++ escaped_key ++ "</font>")%string.

Definition desc_text (h : Hotkey) : string :=
  let escaped_desc := escape (description h) in
  escaped_desc.

Definition section_header_text (section_name : string) : string :=
  ("<b>" ++ str_upper section_name ++ "</b>")%string.

Definition subsection_header_text (subsection_name : string) : string :=
  ("<i>" ++ subsection_name ++ "</i>")%string.

(** Body of the loop over the hotkeys of a table: one row of two cells. *)
Definition row_step (data : list (list flowable)) (h : Hotkey)
  : result (list (list flowable)) :=
  key_cell <~ paragraph (key_text h) style_hotkey ;;
  desc_cell <~ paragraph (desc_text h) style_hotkey ;;
  Ok (data ++ [[key_cell; desc_cell]]).

Definition _create_hotkey_table (cfg : CheatSheetConfig) (hks : list Hotkey)
  : result (option flowable) :=
  match hks with
  | [] => Ok None
  | _ =>
      layout <~ _calculate_layout cfg ;;
      let column_width := fst layout in
      data <~ for_each row_step hks [] ;;
      let key_width := (column_width * 0.35)%float in
      let desc_width := (column_width * 0.65)%float in
      Ok (Some (Table data [key_width; desc_width]))
  end.

(** *** Flow planner: [PDFGenerator._build_content] *)

(** The subsection header, appended for a subsection not named General. *)
Definition append_subsection_header (content : list flowable)
           (subsection_name : string) : result (list flowable) :=
  if negb (subsection_name =? General)%string
  then
    subsection_header <~
      paragraph (subsection_header_text subsection_name) style_subsection_header ;;
    Ok (content ++ [subsection_header])
  else Ok content.

(** The table and its spacer, appended when there is a table. *)
Definition append_table (cfg : CheatSheetConfig) (content : list flowable)
           (hks : list Hotkey) : result (list flowable) :=
  table <~ _create_hotkey_table cfg hks ;;
  match table with
  | Some t => Ok (content ++ [t; Spacer (Int 1) (Float (subsection_spacing cfg))])
  | None => Ok content
  end.

(** Body of the loop that builds [section_content]. *)
Definition content_step (cfg : CheatSheetConfig) (section_content : list flowable)
           (item : string * list Hotkey) : result (list flowable) :=
  let '(subsection_name, hks) := item in
  section_content <~ append_subsection_header section_content subsection_name ;;
  append_table cfg section_content hks.

Definition build_section_content (cfg : CheatSheetConfig) (section_header : flowable)
           (subsections : dict (list Hotkey)) : result (list flowable) :=
  for_each (content_step cfg) (items subsections)
           [section_header; Spacer (Int 1) (Int 3)].

(** Body of the loop of the branch [section_height > 200]; the state is the
    index of [enumerate] and [section_items]. *)
Definition large_step (cfg : CheatSheetConfig) (section_header : flowable)
           (st : nat * list flowable) (item : string * list Hotkey)
  : result (nat * list flowable) :=
  let '(i, section_items) := st in
  let '(subsection_name, hks) := item in
  let subsection_content :=
    if (i =? 0)%nat then [section_header; Spacer (Int 1) (Int 3)] else [] in
  subsection_content <~ append_subsection_header subsection_content subsection_name ;;
  subsection_content <~ append_table cfg subsection_content hks ;;
  let section_items :=
    if (0 <? List.length subsection_content)%nat
    then section_items ++ [KeepTogether subsection_content]
    else section_items in
  Ok (S i, section_items).

(** Body of the loop over [sections.items()]. *)
Definition section_step (cfg : CheatSheetConfig) (section_items : list flowable)
           (item : string * dict (list Hotkey)) : result (list flowable) :=
  let '(section_name, subsections) := item in
  section_height <~ _estimate_section_height cfg subsections ;;
  section_header <~
    paragraph (section_header_text section_name) style_section_header ;;
  section_content <~ build_section_content cfg section_header subsections ;;
  section_items <~
    (if num_gt section_height 200 then
       st <~ for_each (large_step cfg section_header) (items subsections)
                      (0%nat, section_items) ;;
       Ok (snd st)
     else if num_lt section_height 100 then
       Ok (section_items ++ [KeepTogether section_content])
     else
       Ok (section_items ++ section_content)) ;;
  Ok (section_items ++ [Spacer (Int 1) (Float (section_spacing cfg))]).

Definition _build_content (sheet : CheatSheet) : result (list flowable) :=
  let cfg := config sheet in
  title <~ paragraph (sheet_title sheet) style_title ;;
  let content := [title; Spacer (Int 1) (Int 12)] in
  let sections := get_sections sheet in
  section_items <~ for_each (section_step cfg) (items sections) [] ;;
  Ok (content ++ section_items).

(** The blocks the planner emits for one section. *)
Definition section_blocks (cfg : CheatSheetConfig) (section_name : string)
           (subsections : dict (list Hotkey)) : result (list flowable) :=
  section_step cfg [] (section_name, subsections).

End Planner.

(** *** Page estimator: [PDFGenerator.estimate_pages] *)

Definition estimate_pages (sheet : CheatSheet) : result Z :=
  let cfg := config sheet in
  layout <~ _calculate_layout cfg ;;
  let usable_height := snd layout in
  let total_hotkeys := of_len (List.length (hotkeys sheet)) in
  let sections := get_sections sheet in
  let title_height := 30 in
  let section_headers := of_len (len sections) * 15 in
  let subsection_headers :=
    Zsum (map (fun subsections => of_len (len subsections)) (values sections))
    * 12 in
  count <~ float_of_int total_hotkeys ;;
  let hotkey_height := (count * row_height cfg)%float in
  section_count <~ float_of_int (of_len (len sections)) ;;
  let spacing := (section_count * section_spacing cfg)%float in
  headers <~ float_of_int (title_height + section_headers + subsection_headers) ;;
  let total_height := (headers + hotkey_height + spacing)%float in
  effective_height <~ fdiv_int total_height (columns cfg) ;;
  ratio <~ fdiv effective_height usable_height ;;
  pages <~ ceil ratio ;;
  Ok (Z.max 1 pages).

(** *** Notions the properties of the binary64 layer are stated with *)

(** The addends of the height formula for one subsection, in order: the
    header term for a subsection not named General (none for General, whose
    term is 0), the rows, the spacing. *)
Definition subsection_addends (cfg : CheatSheetConfig)
           (item : string * list Hotkey) : list (result number) :=
  (if negb (fst item =? General)%string
   then [Ok (Int (font_size cfg + 8))]
   else [])
  ++ [num_mul (Int (len_of (snd item))) (Float (row_height cfg));
      Ok (Float (subsection_spacing cfg))].

(** A sum evaluated from left to right, as Python evaluates [a + b + c]:
    each addend is computed when its addition is reached. *)
Definition add_next (acc addend : result number) : result number :=
  a <~ acc ;; x <~ addend ;; num_add a x.

Definition sum_from (start : number) (addends : list (result number))
  : result number :=
  fold_left add_next addends (Ok start).

(** The height formula of the specification. *)
Definition spec_section_height (cfg : CheatSheetConfig)
           (subsections : dict (list Hotkey)) : result number :=
  sum_from (Int (header_font_size cfg + 15))
           (flat_map (subsection_addends cfg) subsections
              ++ [Ok (Float (section_spacing cfg))]).

(** The float [-0.0], the one number that adding the integer 0 changes (to
    [0.0], which is equal to it). *)
Definition negative_zero (x : number) : bool :=
  match x with
  | Int _ => false
  | Float f =>
      match FloatOps.Prim2SF f with
      | SpecFloat.S754_zero true => true
      | _ => false
      end
  end.

(** The three flow policies, and the one a height is routed to. *)
Inductive policy : Type :=
| LARGE
| SMALL
| MEDIUM.

Definition policy_of (h : number) : policy :=
  if num_gt h 200 then LARGE
  else if num_lt h 100 then SMALL
  else MEDIUM.

Definition has_entries (item : string * list Hotkey) : bool :=
  match snd item with
  | [] => false
  | _ :: _ => true
  end.

(** An atomic unit around a list of blocks; none around no block. *)
Definition wrap (blocks : list flowable) : list flowable :=
  match blocks with
  | [] => []
  | _ :: _ => [KeepTogether blocks]
  end.

(** The blocks inside an atomic unit; a block that is not one, itself. *)
Definition unwrap (b : flowable) : list flowable :=
  match b with
  | KeepTogether flowables => flowables
  | _ => [b]
  end.

Section PlannerNotions.

Context {ext : Externals}.

Definition section_header_of (section_name : string) : flowable :=
  Paragraph (section_header_text section_name) style_section_header.

Definition subsection_header_of (subsection_name : string) : flowable :=
  Paragraph (subsection_header_text subsection_name) style_subsection_header.

Definition optional_header (subsection_name : string) : list flowable :=
  if negb (subsection_name =? General)%string
  then [subsection_header_of subsection_name]
  else [].

(** A table row: the key in the bold fixed-width font, and the description. *)
Definition hotkey_row (h : Hotkey) : list flowable :=
  [Paragraph (key_text h) style_hotkey; Paragraph (desc_text h) style_hotkey].

(** The table of a subsection's entries and the spacer after it; nothing
    for a subsection without entries. *)
Definition table_blocks (cfg : CheatSheetConfig) (hks : list Hotkey) : list flowable :=
  match hks, _calculate_layout cfg with
  | _ :: _, Ok (column_width, _) =>
      [Table (map hotkey_row hks)
             [(column_width * 0.35)%float; (column_width * 0.65)%float];
       Spacer (Int 1) (Float (subsection_spacing cfg))]
  | _, _ => []
  end.

Definition subsection_blocks (cfg : CheatSheetConfig)
           (item : string * list Hotkey) : list flowable :=
  optional_header (fst item) ++ table_blocks cfg (snd item).

(** The section's blocks in reading order: header, spacer, then every
    subsection's blocks. *)
Definition spec_content (cfg : CheatSheetConfig) (section_name : string)
           (subsections : dict (list Hotkey)) : list flowable :=
  [section_header_of section_name; Spacer (Int 1) (Int 3)]
    ++ flat_map (subsection_blocks cfg) subsections.

(** The atomic units of policy LARGE: one per subsection, the section header
    and its spacer attached to the first. *)
Definition spec_units (cfg : CheatSheetConfig) (section_name : string)
           (subsections : dict (list Hotkey)) : list flowable :=
  match subsections with
  | [] => []
  | first :: rest =>
      KeepTogether ([section_header_of section_name; Spacer (Int 1) (Int 3)]
                      ++ subsection_blocks cfg first)
        :: flat_map (fun item => wrap (subsection_blocks cfg item)) rest
  end.

(** Whether the blocks can be built, in the order the planner builds them:
    a markup text the parser rejects raises, and so does the layout a table
    needs. *)
Definition check (text : string) : result unit :=
  if markup_ok text then Ok tt else Raise ValueError.

Definition row_guard (h : Hotkey) : result unit :=
  _ <~ check (key_text h) ;; check (desc_text h).

Definition table_guard (cfg : CheatSheetConfig) (hks : list Hotkey) : result unit :=
  match hks with
  | [] => Ok tt
  | _ :: _ =>
      _ <~ _calculate_layout cfg ;;
      for_each (fun _ h => row_guard h) hks tt
  end.

Definition subsection_guard (cfg : CheatSheetConfig)
           (item : string * list Hotkey) : result unit :=
  _ <~ (if negb (fst item =? General)%string
        then check (subsection_header_text (fst item))
        else Ok tt) ;;
  table_guard cfg (snd item).

Definition subsections_guard (cfg : CheatSheetConfig)
           (subsections : dict (list Hotkey)) : result unit :=
  for_each (fun _ item => subsection_guard cfg item) subsections tt.

Definition section_guard (cfg : CheatSheetConfig) (section_name : string)
           (subsections : dict (list Hotkey)) : result unit :=
  _ <~ check (section_header_text section_name) ;;
  subsections_guard cfg subsections.

End PlannerNotions.

(** The page formula of the specification, evaluated from left to right:
    the integer terms exactly, then the two products. *)
Definition spec_total_height (cfg : CheatSheetConfig)
           (n_sections n_subsections n_entries : Z) : float :=
  (nearest (30 + n_sections * 15 + n_subsections * 12)
   + nearest n_entries * row_height cfg
   + nearest n_sections * section_spacing cfg)%float.

Definition spec_quotient (cfg : CheatSheetConfig)
           (n_sections n_subsections n_entries : Z) : float :=
  (spec_total_height cfg n_sections n_subsections n_entries
   / nearest (columns cfg)
   / (page_height - 2 * margin cfg))%float.

(** *** Sample data *)

(** [str.upper] on ASCII text, and a parser that accepts every text. *)
Definition sample_externals : Externals :=
  {| str_upper := upper; markup_ok := fun _ => true |}.

(** A parser that rejects the text of the header of a section named [<]. *)
Definition strict_externals : Externals :=
  {| str_upper := upper; markup_ok := fun text => negb (text =? "<b><</b>")%string |}.

Definition sample_config : CheatSheetConfig :=
  {| title := "Hotkey Cheat Sheet";
     font_size := 7;
     header_font_size := 12;
     columns := 5;
     margin := 15;
     row_height := 10;
     section_spacing := 8;
     subsection_spacing := 4 |}.

(** The sample configuration with another row height and section
    spacing. *)
Definition sized_config (r s : float) : CheatSheetConfig :=
  {| title := "Hotkey Cheat Sheet";
     font_size := 7;
     header_font_size := 12;
     columns := 5;
     margin := 15;
     row_height := r;
     section_spacing := s;
     subsection_spacing := 4 |}.

(** The sample configuration with another margin. *)
Definition margin_config (m : float) : CheatSheetConfig :=
  {| title := "Hotkey Cheat Sheet";
     font_size := 7;
     header_font_size := 12;
     columns := 5;
     margin := m;
     row_height := 10;
     section_spacing := 8;
     subsection_spacing := 4 |}.

(** A configuration whose spacings are not binary fractions. *)
Definition tenths_config : CheatSheetConfig :=
  {| title := "Hotkey Cheat Sheet";
     font_size := 7;
     header_font_size := 12;
     columns := 5;
     margin := 15;
     row_height := 8.7;
     section_spacing := 28.3;
     subsection_spacing := 18.6 |}.

(** The section Edit of the sample entries: a named subsection with two
    entries, then General with one. *)
Definition edit_subsections : dict (list Hotkey) :=
  [ ("Clipboard", [ hk "Ctrl+C" "Copy" "Edit" "Clipboard";
                    hk "Ctrl+V" "Paste" "Edit" "Clipboard" ]);
    ("General", [ hk "Ctrl+Z" "Undo" "Edit" EmptyString ]) ].

(** A section of three entries without a subsection. *)
Definition three_general : dict (list Hotkey) :=
  [ ("General", [ hk "Ctrl+C" "Copy" "Edit" EmptyString;
                  hk "Ctrl+V" "Paste" "Edit" EmptyString;
                  hk "Ctrl+Z" "Undo" "Edit" EmptyString ]) ].

Definition sample_sheet : CheatSheet :=
  {| sheet_title := "Test"; hotkeys := sample_hotkeys; config := sample_config |}.

Definition empty_sheet (cfg : CheatSheetConfig) : CheatSheet :=
  {| sheet_title := "Empty"; hotkeys := []; config := cfg |}.

End Binary64.

(* ================================================================= *)
(** ** Properties of the height estimator *)









(* ================================================================= *)
(** ** Dictionaries and first-seen order *)

Section DictLemmas.

Context {V : Type}.

Lemma get_map_keys (f : string -> V) (ks : list string) (k : string) :
  get k (map (fun k' => (k', f k')) ks)
  = if existsb (String.eqb k) ks then Some (f k) else None.
Proof.
  induction ks as [|a ks IH]; simpl; [reflexivity|].
  destruct (k =? a)%string eqn:E; simpl.
  - apply String.eqb_eq in E. now subst.
  - exact IH.
Qed.

Lemma set_new (k : string) (v : V) (d : dict V) :
  get k d = None -> set k v d = d ++ [(k, v)].
Proof.
  induction d as [|[k' v'] d IH]; simpl; [reflexivity|].
  destruct (k =? k')%string; [discriminate|].
  intros H. now rewrite IH.
Qed.

Lemma get_last (k : string) (v : V) (d : dict V) :
  get k d = None -> get k (d ++ [(k, v)]) = Some v.
Proof.
  induction d as [|[k' v'] d IH]; simpl.
  - now rewrite String.eqb_refl.
  - destruct (k =? k')%string; [discriminate|exact IH].
Qed.

Lemma set_last (k : string) (v v' : V) (d : dict V) :
  get k d = None -> set k v' (d ++ [(k, v)]) = d ++ [(k, v')].
Proof.
  induction d as [|[k' w] d IH]; simpl.
  - now rewrite String.eqb_refl.
  - destruct (k =? k')%string; [discriminate|].
    intros H. now rewrite IH.
Qed.

Lemma set_map_keys (f : string -> V) (ks : list string) (k : string) (v : V) :
  NoDup ks -> In k ks ->
  set k v (map (fun k' => (k', f k')) ks)
  = map (fun k' => (k', if (k' =? k)%string then v else f k')) ks.
Proof.
  induction ks as [|a ks IH]; simpl; [now intros _ []|].
  intros ND Hin. inversion ND as [|? ? Hna ND']; subst.
  destruct (k =? a)%string eqn:E.
  - apply String.eqb_eq in E. subst a. rewrite String.eqb_refl. f_equal.
    apply map_ext_in. intros k' Hk'.
    destruct (k' =? k)%string eqn:E'; [|reflexivity].
    apply String.eqb_eq in E'. subst k'. contradiction.
  - rewrite String.eqb_sym, E. f_equal.
    apply IH; [assumption|].
    destruct Hin as [->|Hin]; [|assumption].
    now rewrite String.eqb_refl in E.
Qed.

End DictLemmas.

Lemma existsb_eqb_In (k : string) (l : list string) :
  existsb (String.eqb k) l = true <-> In k l.
Proof.
  rewrite existsb_exists. split.
  - intros [x [Hx E]]. apply String.eqb_eq in E. now subst.
  - intros H. exists k. split; [assumption|apply String.eqb_refl].
Qed.

Lemma In_first_seen (l : list string) (x : string) :
  In x (first_seen l) <-> In x l.
Proof.
  induction l as [|a l IH]; simpl; [tauto|].
  rewrite filter_In, IH. split.
  - intros [H|[H _]]; auto.
  - intros [H|H]; [now left|].
    destruct (x =? a)%string eqn:E.
    + apply String.eqb_eq in E. now left.
    + right. now split.
Qed.

Lemma NoDup_first_seen (l : list string) : NoDup (first_seen l).
Proof.
  induction l as [|a l IH]; simpl; constructor.
  - rewrite filter_In, String.eqb_refl. now intros [_ H].
  - now apply NoDup_filter.
Qed.

Lemma first_seen_snoc (l : list string) (x : string) :
  first_seen (l ++ [x])
  = if existsb (String.eqb x) l then first_seen l else first_seen l ++ [x].
Proof.
  induction l as [|a l IH]; simpl; [reflexivity|].
  rewrite IH.
  destruct (x =? a)%string eqn:E; simpl.
  - destruct (existsb (String.eqb x) l); [reflexivity|].
    rewrite filter_app. simpl. rewrite E. simpl. now rewrite app_nil_r.
  - destruct (existsb (String.eqb x) l); [reflexivity|].
    rewrite filter_app. simpl. now rewrite E.
Qed.

Lemma existsb_first_seen (k : string) (l : list string) :
  existsb (String.eqb k) (first_seen l) = existsb (String.eqb k) l.
Proof.
  apply eq_true_iff_eq. now rewrite !existsb_eqb_In, In_first_seen.
Qed.

(* ================================================================= *)
(** ** The grouping loop computes the first-seen grouping *)

Section Grouping.

Context {A V : Type} (kf : A -> string) (F : list A -> V).
Context (empty : V) (upd : V -> A -> V).
Hypothesis empty_spec : empty = F [].
Hypothesis upd_spec : forall l x, upd (F l) x = F (l ++ [x]).

Lemma get_group_spec (l : list A) (k : string) :
  get k (group_spec kf F l)
  = if existsb (String.eqb k) (map kf l)
    then Some (F (filter (fun a => (kf a =? k)%string) l))
    else None.
Proof.
  unfold group_spec.
  rewrite (get_map_keys (fun k => F (filter (fun a => (kf a =? k)%string) l))).
  now rewrite existsb_first_seen.
Qed.

Lemma filter_key_absent (l : list A) (k : string) :
  existsb (String.eqb k) (map kf l) = false ->
  filter (fun a => (kf a =? k)%string) l = [].
Proof.
  induction l as [|a l IH]; simpl; [reflexivity|].
  rewrite orb_false_iff. intros [E H].
  rewrite String.eqb_sym, E. now apply IH.
Qed.

Lemma group_add_spec (l : list A) (x : A) :
  group_add kf empty upd (group_spec kf F l) x = group_spec kf F (l ++ [x]).
Proof.
  unfold group_add, contains, get_or.
  rewrite get_group_spec.
  destruct (existsb (String.eqb (kf x)) (map kf l)) eqn:Ex.
  - rewrite get_group_spec, Ex.
    unfold group_spec at 1.
    rewrite set_map_keys.
    + unfold group_spec. rewrite map_app. simpl map.
      rewrite first_seen_snoc, Ex.
      apply map_ext. intros k. f_equal.
      rewrite filter_app. simpl.
      rewrite (String.eqb_sym k).
      destruct (kf x =? k)%string eqn:E.
      * apply String.eqb_eq in E. subst k. apply upd_spec.
      * now rewrite app_nil_r.
    + apply NoDup_first_seen.
    + apply In_first_seen, existsb_eqb_In, Ex.
  - assert (Hnone : get (kf x) (group_spec kf F l) = None)
      by now rewrite get_group_spec, Ex.
    rewrite (set_new _ _ _ Hnone), (get_last _ _ _ Hnone), (set_last _ _ _ _ Hnone).
    unfold group_spec. rewrite map_app. simpl map.
    rewrite first_seen_snoc, Ex, map_app. simpl map.
    f_equal.
    + apply map_ext_in. intros k Hk. f_equal.
      rewrite filter_app. simpl.
      destruct (kf x =? k)%string eqn:E; [|now rewrite app_nil_r].
      apply String.eqb_eq in E. subst k.
      apply (proj1 (In_first_seen _ _)) in Hk.
      apply (proj2 (existsb_eqb_In _ _)) in Hk. congruence.
    + rewrite filter_app. simpl. rewrite String.eqb_refl.
      rewrite (filter_key_absent _ _ Ex). simpl.
      now rewrite empty_spec, upd_spec.
Qed.

Lemma fold_group_add (l : list A) :
  fold_left (group_add kf empty upd) l [] = group_spec kf F l.
Proof.
  induction l as [|x l IH] using rev_ind; [reflexivity|].
  now rewrite fold_left_app, IH; simpl; rewrite group_add_spec.
Qed.

End Grouping.

Lemma spec_subsections_group (hs : list Hotkey) :
  spec_subsections hs = group_spec bucket_name (fun l => l) hs.
Proof. reflexivity. Qed.

Lemma spec_group_group (hs : list Hotkey) :
  spec_group hs = group_spec section spec_subsections hs.
Proof. reflexivity. Qed.

Lemma get_sections_spec_group (sheet : CheatSheet) :
  get_sections sheet = spec_group (hotkeys sheet).
Proof.
  unfold get_sections. rewrite spec_group_group.
  change (fold_left add_hotkey (hotkeys sheet) [])
    with (fold_left
            (group_add section []
               (group_add bucket_name [] (fun bucket x => bucket ++ [x])))
            (hotkeys sheet) []).
  apply fold_group_add; [reflexivity|].
  intros l x.
  rewrite (spec_subsections_group l), (spec_subsections_group (l ++ [x])).
  now apply group_add_spec.
Qed.

(** C6: the grouped view is the first-seen grouping of the entries: sections
    come in the order of their first entry, the subsections of a section in
    the order of their first entry within it, and entries keep their input
    order inside a bucket. *)
Theorem get_sections_first_seen_order (sheet : CheatSheet) :
  get_sections sheet = spec_group (hotkeys sheet)
  /\ keys (get_sections sheet) = first_seen (map section (hotkeys sheet))
  /\ Forall (fun item =>
               keys (snd item)
               = first_seen
                   (map bucket_name
                        (filter (in_section (fst item)) (hotkeys sheet))))
            (get_sections sheet).
Proof.
  rewrite get_sections_spec_group. split; [reflexivity|]. split.
  - unfold keys, spec_group. rewrite map_map. simpl. apply map_id.
  - unfold spec_group. apply Forall_forall. intros item Hin.
    apply in_map_iff in Hin. destruct Hin as [s [<- _]]. simpl.
    unfold keys, spec_subsections. rewrite map_map. simpl. apply map_id.
Qed.

Example sample_group :
  get_sections sample_sheet
  = [("Edit", [("Clipboard", [hk "Ctrl+C" "Copy" "Edit" "Clipboard";
                              hk "Ctrl+V" "Paste" "Edit" "Clipboard"]);
               ("General", [hk "Ctrl+Z" "Undo" "Edit" EmptyString])]);
     ("File", [("General", [hk "Ctrl+S" "Save" "File" EmptyString])])].
Proof. reflexivity. Qed.

(* ================================================================= *)
(** ** Entries and where they land *)

Lemma new_Hotkey_cases (k d s sub : string) :
  (k = EmptyString \/ d = EmptyString \/ s = EmptyString)
  /\ new_Hotkey k d s sub
     = Raise (ValueError "Key, description, and section are required")
  \/ (k <> EmptyString /\ d <> EmptyString /\ s <> EmptyString)
     /\ new_Hotkey k d s sub = Ok (mkHotkey k d s sub).
Proof.
  unfold new_Hotkey.
  destruct (k =? EmptyString)%string eqn:Ek;
    [left; apply String.eqb_eq in Ek; now auto|].
  destruct (d =? EmptyString)%string eqn:Ed;
    [left; apply String.eqb_eq in Ed; now auto|].
  destruct (s =? EmptyString)%string eqn:Es;
    [left; apply String.eqb_eq in Es; now auto|].
  right. apply String.eqb_neq in Ek, Ed, Es. now auto.
Qed.

(** C5: constructing a [Hotkey] raises the validation error exactly when the
    key, the description or the section is empty, and otherwise gives the
    record with the four fields; so every constructed entry, the only kind
    the layout functions can be given, has the three fields non-empty. *)
Theorem hotkey_construction_validates (k d s sub : string) :
  (new_Hotkey k d s sub
   = Raise (ValueError "Key, description, and section are required")
   <-> (k = EmptyString \/ d = EmptyString \/ s = EmptyString))
  /\ (new_Hotkey k d s sub = Ok (mkHotkey k d s sub)
      <-> (k <> EmptyString /\ d <> EmptyString /\ s <> EmptyString))
  /\ (forall h, new_Hotkey k d s sub = Ok h ->
        key h <> EmptyString /\ description h <> EmptyString
        /\ section h <> EmptyString).
Proof.
  destruct (new_Hotkey_cases k d s sub) as [[Hempty E]|[Hfull E]]; rewrite E.
  - split; [|split].
    + tauto.
    + split; [discriminate|]. tauto.
    + discriminate.
  - split; [|split].
    + split; [discriminate|]. tauto.
    + tauto.
    + intros h H. inversion H; subst; simpl. exact Hfull.
Qed.

Lemma general_bucket_of_group (hs : list Hotkey) (h : Hotkey) :
  In h hs -> subsection h = EmptyString ->
  exists subs bucket,
    get (section h) (spec_group hs) = Some subs
    /\ get General subs = Some bucket
    /\ In h bucket.
Proof.
  intros Hin Hsub.
  assert (Hb : bucket_name h = General)
    by (unfold bucket_name; now rewrite Hsub).
  exists (spec_subsections (filter (in_section (section h)) hs)).
  exists (filter (in_bucket General) (filter (in_section (section h)) hs)).
  assert (Hs : In h (filter (in_section (section h)) hs)).
  { apply filter_In. split; [assumption|]. apply String.eqb_refl. }
  split; [|split].
  - rewrite spec_group_group, get_group_spec.
    replace (existsb (String.eqb (section h)) (map section hs)) with true;
      [reflexivity|].
    symmetry. apply existsb_eqb_In, in_map, Hin.
  - rewrite spec_subsections_group, get_group_spec.
    replace (existsb (String.eqb General)
               (map bucket_name (filter (in_section (section h)) hs)))
      with true; [reflexivity|].
    symmetry. apply existsb_eqb_In. rewrite <- Hb. now apply in_map.
  - apply filter_In. split; [assumption|].
    unfold in_bucket. rewrite Hb. apply String.eqb_refl.
Qed.

(* ================================================================= *)
(** ** Loops that only append *)

Section AppendingLoops.

Context {A T : Type} (body : list T -> A -> result (list T)).
Hypothesis body_incl : forall s x s', body s x = Ok s' -> incl s s'.

Lemma for_each_incl (l : list A) : forall s s',
  for_each body l s = Ok s' -> incl s s'.
Proof.
  induction l as [|x l IH]; simpl; intros s s' H.
  - inversion H. apply incl_refl.
  - destruct (body s x) as [s1|e] eqn:E; simpl in H; [|discriminate].
    eapply incl_tran; [eapply body_incl; eassumption|]. now apply IH.
Qed.

Lemma for_each_reaches (x : A) (t : T) :
  (forall s s', body s x = Ok s' -> In t s') ->
  forall l s s', In x l -> for_each body l s = Ok s' -> In t s'.
Proof.
  intros Hx. induction l as [|y l IH]; simpl; intros s s' Hin H; [contradiction|].
  destruct (body s y) as [s1|e] eqn:E; simpl in H; [|discriminate].
  destruct Hin as [->|Hin].
  - eapply for_each_incl; [eassumption|]. eapply Hx; eassumption.
  - eapply IH; eassumption.
Qed.

End AppendingLoops.

Lemma pair_step_incl sn ssn (s : list Hotkey) x s' :
  pair_step sn ssn s x = Ok s' -> incl s s'.
Proof.
  destruct x as [k d]. unfold pair_step.
  destruct (new_Hotkey k d sn ssn); simpl; intros H; inversion H.
  apply incl_appl, incl_refl.
Qed.

Lemma subsection_step_incl sn (s : list Hotkey) x s' :
  subsection_step sn s x = Ok s' -> incl s s'.
Proof.
  destruct x as [name [text|pairs]]; simpl.
  - destruct (new_Hotkey_default name text sn); simpl; intros H; inversion H.
    apply incl_appl, incl_refl.
  - apply for_each_incl. apply pair_step_incl.
Qed.

Lemma section_parse_step_incl (s : list Hotkey) x s' :
  section_parse_step s x = Ok s' -> incl s s'.
Proof.
  destruct x as [name [entries|v]]; simpl.
  - apply for_each_incl. apply subsection_step_incl.
  - intros H. inversion H. apply incl_refl.
Qed.

Lemma scalar_entry_parsed sn k text (s s' : list Hotkey) :
  subsection_step sn s (k, Description text) = Ok s' ->
  In (mkHotkey k text sn EmptyString) s'.
Proof.
  simpl. unfold new_Hotkey_default.
  destruct (new_Hotkey_cases k text sn EmptyString) as [[_ E]|[_ E]];
    rewrite E; simpl; intros H; inversion H.
  apply in_or_app. right. now left.
Qed.

Lemma parsed_scalar_entries secs sn entries k text (hks : list Hotkey) :
  In (sn, SectionDict entries) secs ->
  In (k, Description text) entries ->
  for_each section_parse_step secs [] = Ok hks ->
  In (mkHotkey k text sn EmptyString) hks.
Proof.
  intros Hsec Hentry.
  apply (for_each_reaches section_parse_step section_parse_step_incl
           (sn, SectionDict entries)); [|assumption].
  intros s s'. simpl.
  apply (for_each_reaches (subsection_step sn) (subsection_step_incl sn)
           (k, Description text)); [|assumption].
  intros s0 s0'. apply scalar_entry_parsed.
Qed.

(** C7: an entry with an empty subsection is filed under the bucket named
    General of its section; and a scalar value directly under a section is
    parsed into an entry with an empty subsection, which the grouped view of
    the parsed sheet therefore holds in the General bucket. *)
Theorem empty_subsection_lands_in_General :
  (forall (sheet : CheatSheet) (h : Hotkey),
      In h (hotkeys sheet) -> subsection h = EmptyString ->
      exists subs bucket,
        get (section h) (get_sections sheet) = Some subs
        /\ get General subs = Some bucket
        /\ In h bucket)
  /\ (forall (ConfigData : Type) (from_dict : option ConfigData -> CheatSheetConfig)
             t c secs sn entries k text sheet,
      parse_dict from_dict (DataDict t c (Some (SectionsDict secs))) = Ok sheet ->
      In (sn, SectionDict entries) secs ->
      In (k, Description text) entries ->
      let h := mkHotkey k text sn EmptyString in
      In h (hotkeys sheet)
      /\ exists subs bucket,
           get sn (get_sections sheet) = Some subs
           /\ get General subs = Some bucket
           /\ In h bucket).
Proof.
  split.
  - intros sheet h Hin Hsub. rewrite get_sections_spec_group.
    now apply general_bucket_of_group.
  - intros ConfigData from_dict t c secs sn entries k text sheet Hparse Hsec Hentry h.
    simpl in Hparse. unfold items in Hparse.
    destruct (for_each section_parse_step secs []) as [hks|e] eqn:E;
      simpl in Hparse; [|discriminate].
    inversion Hparse; subst sheet; clear Hparse. simpl.
    assert (Hin : In h hks) by (eapply parsed_scalar_entries; eassumption).
    split; [assumption|].
    rewrite get_sections_spec_group. simpl.
    apply (general_bucket_of_group hks h Hin). reflexivity.
Qed.

Example sample_parse :
  parse_dict sample_from_dict sample_data
  = Ok {| sheet_title := "Test";
          hotkeys := sample_hotkeys;
          config := set_title sample_config "Test" |}.
Proof. reflexivity. Qed.

Lemma empty_subsection_lands_in_General_witness :
  (exists subs bucket,
      get "Edit" (get_sections sample_sheet) = Some subs
      /\ get General subs = Some bucket
      /\ In (hk "Ctrl+Z" "Undo" "Edit" EmptyString) bucket)
  /\ (In (hk "Ctrl+S" "Save" "File" EmptyString) sample_hotkeys
      /\ exists subs bucket,
           get "File"
               (get_sections {| sheet_title := "Test";
                                hotkeys := sample_hotkeys;
                                config := set_title sample_config "Test" |})
           = Some subs
           /\ get General subs = Some bucket
           /\ In (hk "Ctrl+S" "Save" "File" EmptyString) bucket).
Proof.
  split.
  - apply (proj1 empty_subsection_lands_in_General sample_sheet
             (hk "Ctrl+Z" "Undo" "Edit" EmptyString)).
    + simpl. tauto.
    + reflexivity.
  - apply (proj2 empty_subsection_lands_in_General unit sample_from_dict
             (Some "Test") None sample_sections "File"
             [("Ctrl+S", Description "Save")] "Ctrl+S" "Save"
             {| sheet_title := "Test";
                hotkeys := sample_hotkeys;
                config := set_title sample_config "Test" |}).
    + reflexivity.
    + simpl. tauto.
    + simpl. tauto.
Defined.

(* ================================================================= *)
(** ** Validation collects one message per rejected section *)

Lemma validate_step_message errors item :
  validate_step errors item
  = errors ++ (if invalid_section item then [section_message item] else []).
Proof.
  destruct item as [name [[|e entries]|v]]; simpl;
    try reflexivity; now rewrite app_nil_r.
Qed.

Lemma fold_validate_step secs : forall errors,
  fold_left validate_step secs errors
  = errors ++ map section_message (filter invalid_section secs).
Proof.
  induction secs as [|item secs IH]; intros errors; simpl.
  - now rewrite app_nil_r.
  - rewrite IH, validate_step_message.
    destruct (invalid_section item); simpl.
    + now rewrite <- app_assoc.
    + now rewrite app_nil_r.
Qed.

(** C9: when the root is a mapping whose [sections] value is a mapping,
    [validate_yaml] returns, in document order, exactly one message for each
    section that is not a mapping or is empty: the errors of all such
    sibling sections are collected, not only the first. *)
Theorem validate_yaml_collects_section_errors
        (ConfigData : Type) (file_path : string) (t : option string)
        (c : option ConfigData) (secs : dict section_value) :
  let errors :=
    validate_yaml file_path (Loaded (DataDict t c (Some (SectionsDict secs)))) in
  errors = map section_message (filter invalid_section secs)
  /\ List.length errors = List.length (filter invalid_section secs)
  /\ (forall item, In item secs -> invalid_section item = true ->
                   In (section_message item) errors).
Proof.
  simpl. unfold items. rewrite fold_validate_step. simpl.
  split; [reflexivity|]. split.
  - apply length_map.
  - intros item Hin Hbad. apply in_map. apply filter_In. now split.
Qed.

Example sample_validation :
  validate_yaml "sheet.yaml" (Loaded sample_data)
  = ["Section 'Broken' must be a dictionary"; "Section 'Hollow' is empty"].
Proof. reflexivity. Qed.

(* ================================================================= *)
(** ** Page estimator *)

Lemma fold_add_lengths {X : Type} (l : list (list X)) : forall acc,
  fold_left Z.add (map (fun x => of_len (List.length x)) l) acc
  = (acc + Z.of_nat (list_sum (map (@List.length X) l)))%Z.
Proof.
  induction l as [|x l IH]; intros acc; simpl.
  - lia.
  - rewrite IH. unfold of_len. lia.
Qed.

Lemma Zsum_subsections (sections : dict (dict (list Hotkey))) :
  Zsum (map (fun subsections => of_len (len subsections)) (values sections))
  = Z.of_nat (count_subsections sections).
Proof.
  unfold Zsum, values, count_subsections, len.
  rewrite (fold_add_lengths (map snd sections)), map_map. reflexivity.
Qed.





Example estimate_pages_sample : estimate_pages sample_sheet = Ok 1%Z.
Proof. reflexivity. Qed.

(* ================================================================= *)
(** ** Flow planner *)

Lemma Qltb_lt (x y : Q) : Qltb x y = true <-> x < y.
Proof.
  unfold Qltb. rewrite negb_true_iff. split.
  - intros H. apply Qnot_le_lt. intros Hle.
    apply Qle_bool_iff in Hle. congruence.
  - intros H. destruct (Qle_bool y x) eqn:E; [|reflexivity].
    apply Qle_bool_iff in E. now apply Qlt_not_le in H.
Qed.

Lemma Qltb_ge (x y : Q) : Qltb x y = false <-> y <= x.
Proof.
  unfold Qltb. rewrite negb_false_iff. apply Qle_bool_iff.
Qed.

Lemma for_each_app {A S : Type} (body : S -> A -> result S) (l1 l2 : list A) :
  forall s,
    for_each body (l1 ++ l2) s
    = (s1 <- for_each body l1 s ;; for_each body l2 s1).
Proof.
  induction l1 as [|x l1 IH]; intros s; simpl; [reflexivity|].
  destruct (body s x); simpl; [apply IH|reflexivity].
Qed.












(* ================================================================= *)
(** ** The stream is the title followed by the blocks of each section *)




(** Every bucket of the grouped view holds at least one entry. *)
Lemma get_sections_buckets_have_entries (sheet : CheatSheet) :
  Forall (fun item => Forall has_entries (snd item)) (get_sections sheet).
Proof.
  rewrite get_sections_spec_group. unfold spec_group.
  apply Forall_forall. intros item Hin.
  apply in_map_iff in Hin. destruct Hin as [s [<- _]]. simpl.
  unfold spec_subsections. apply Forall_forall. intros bucket Hb.
  apply in_map_iff in Hb. destruct Hb as [b [<- Hb]].
  unfold has_entries. simpl.
  apply In_first_seen, in_map_iff in Hb. destruct Hb as [h [Hname Hh]].
  intros Hnil.
  assert (Hin : In h (filter (in_bucket b)
                             (filter (in_section s) (hotkeys sheet)))).
  { apply filter_In. split; [assumption|].
    unfold in_bucket. rewrite Hname. apply String.eqb_refl. }
  rewrite Hnil in Hin. contradiction.
Qed.

Example sample_content :
  _build_content sample_sheet
  = Ok [ Paragraph "Test" style_title; Spacer 1 12;
         KeepTogether
           [ section_header_of "Edit"; Spacer 1 3;
             subsection_header_of "Clipboard";
             Table [ hotkey_row (hk "Ctrl+C" "Copy" "Edit" "Clipboard");
                     hotkey_row (hk "Ctrl+V" "Paste" "Edit" "Clipboard") ]
                   [ ((page_width - 2 * 15 - inject_Z (5 - 1) * 15)
                      / inject_Z 5) * (35 # 100);
                     ((page_width - 2 * 15 - inject_Z (5 - 1) * 15)
                      / inject_Z 5) * (65 # 100) ];
             Spacer 1 4;
             Table [ hotkey_row (hk "Ctrl+Z" "Undo" "Edit" EmptyString) ]
                   [ ((page_width - 2 * 15 - inject_Z (5 - 1) * 15)
                      / inject_Z 5) * (35 # 100);
                     ((page_width - 2 * 15 - inject_Z (5 - 1) * 15)
                      / inject_Z 5) * (65 # 100) ];
             Spacer 1 4 ];
         Spacer 1 8;
         KeepTogether
           [ section_header_of "File"; Spacer 1 3;
             Table [ hotkey_row (hk "Ctrl+S" "Save" "File" EmptyString) ]
                   [ ((page_width - 2 * 15 - inject_Z (5 - 1) * 15)
                      / inject_Z 5) * (35 # 100);
                     ((page_width - 2 * 15 - inject_Z (5 - 1) * 15)
                      / inject_Z 5) * (65 # 100) ];
             Spacer 1 4 ];
         Spacer 1 8 ].
Proof. reflexivity. Qed.

(* ================================================================= *)
(** ** Parsing: the entries of a document *)

Section CollectingLoops.

Context {A T : Type} (body : list T -> A -> result (list T)).
Context (produced : A -> list T) (accepted : A -> bool) (error : exn).
Hypothesis body_spec : forall s x,
  body s x = if accepted x then Ok (s ++ produced x) else Raise error.

Lemma for_each_collect (l : list A) : forall s,
  for_each body l s
  = if forallb accepted l then Ok (s ++ flat_map produced l) else Raise error.
Proof.
  induction l as [|x l IH]; intros s; simpl.
  - now rewrite app_nil_r.
  - rewrite body_spec. destruct (accepted x); simpl; [|reflexivity].
    rewrite IH. destruct (forallb accepted l); [|reflexivity].
    now rewrite app_assoc.
Qed.

End CollectingLoops.

Lemma forallb_flat_map {A B : Type} (p : B -> bool) (f : A -> list B) (l : list A) :
  forallb p (flat_map f l) = forallb (fun x => forallb p (f x)) l.
Proof.
  induction l as [|x l IH]; simpl; [reflexivity|].
  now rewrite forallb_app, IH.
Qed.

Lemma forallb_of_map {A B : Type} (p : B -> bool) (f : A -> B) (l : list A) :
  forallb p (map f l) = forallb (fun x => p (f x)) l.
Proof.
  induction l as [|x l IH]; simpl; [reflexivity|now rewrite IH].
Qed.

Lemma flat_map_single {A B : Type} (f : A -> B) (l : list A) :
  flat_map (fun x => [f x]) l = map f l.
Proof.
  induction l as [|x l IH]; simpl; [reflexivity|now rewrite IH].
Qed.

Lemma new_Hotkey_valid (k d s sub : string) :
  new_Hotkey k d s sub
  = if valid_entry (mkHotkey k d s sub)
    then Ok (mkHotkey k d s sub) else Raise required_fields_error.
Proof.
  unfold new_Hotkey, valid_entry. simpl.
  now destruct ((k =? EmptyString)%string || (d =? EmptyString)%string
                || (s =? EmptyString)%string).
Qed.

Lemma pair_step_collect sn ssn hks (pair : string * string) :
  pair_step sn ssn hks pair
  = if valid_entry (mkHotkey (fst pair) (snd pair) sn ssn)
    then Ok (hks ++ [mkHotkey (fst pair) (snd pair) sn ssn])
    else Raise required_fields_error.
Proof.
  destruct pair as [k d]. unfold pair_step. rewrite new_Hotkey_valid. simpl.
  now destruct (valid_entry (mkHotkey k d sn ssn)).
Qed.

Lemma subsection_step_collect sn hks (item : string * subsection_value) :
  subsection_step sn hks item
  = if forallb valid_entry (entries_of_subsection sn item)
    then Ok (hks ++ entries_of_subsection sn item)
    else Raise required_fields_error.
Proof.
  destruct item as [name [text|pairs]]; unfold entries_of_subsection; simpl.
  - unfold new_Hotkey_default. rewrite new_Hotkey_valid.
    destruct (valid_entry (mkHotkey name text sn EmptyString)); reflexivity.
  - unfold items.
    rewrite (for_each_collect (pair_step sn name)
               (fun pair => [mkHotkey (fst pair) (snd pair) sn name])
               (fun pair => valid_entry (mkHotkey (fst pair) (snd pair) sn name))
               required_fields_error (pair_step_collect sn name)).
    now rewrite forallb_of_map, flat_map_single.
Qed.

Lemma section_parse_step_collect hks (item : string * section_value) :
  section_parse_step hks item
  = if forallb valid_entry (entries_of_section item)
    then Ok (hks ++ entries_of_section item)
    else Raise required_fields_error.
Proof.
  destruct item as [name [entries|v]]; unfold entries_of_section; simpl.
  - unfold items.
    rewrite (for_each_collect (subsection_step name)
               (entries_of_subsection name)
               (fun item => forallb valid_entry (entries_of_subsection name item))
               required_fields_error (subsection_step_collect name)).
    now rewrite forallb_flat_map.
  - now rewrite app_nil_r.
Qed.

Lemma parse_sections_collect (secs : dict section_value) :
  for_each section_parse_step secs []
  = if forallb valid_entry (document_entries secs)
    then Ok (document_entries secs) else Raise required_fields_error.
Proof.
  rewrite (for_each_collect section_parse_step entries_of_section
             (fun item => forallb valid_entry (entries_of_section item))
             required_fields_error section_parse_step_collect).
  unfold document_entries. now rewrite forallb_flat_map.
Qed.

(** X1: for a root mapping whose [sections] value is a mapping, [parse_dict]
    succeeds exactly when every entry of the mapping sections has a
    non-empty key, description and section name; the sheet then holds the
    entries in document order, under the given or the default title, which
    is also the title of its configuration.  Otherwise it raises the error
    of the entry constructor.  A root mapping without a [sections] key is
    parsed as a sheet without entries. *)
Theorem parse_dict_collects_document_entries
        (ConfigData : Type) (from_dict : option ConfigData -> CheatSheetConfig)
        (t : option string) (c : option ConfigData) (secs : dict section_value) :
  let title' := match t with Some s => s | None => "Hotkey Cheat Sheet" end in
  parse_dict from_dict (DataDict t c (Some (SectionsDict secs)))
  = (if forallb valid_entry (document_entries secs)
     then Ok {| sheet_title := title';
                hotkeys := document_entries secs;
                config := set_title (from_dict c) title' |}
     else Raise required_fields_error)
  /\ parse_dict from_dict (DataDict t c None)
     = Ok {| sheet_title := title';
             hotkeys := [];
             config := set_title (from_dict c) title' |}.
Proof.
  intros title'. split; [|reflexivity].
  simpl. unfold items. rewrite parse_sections_collect.
  now destruct (forallb valid_entry (document_entries secs)).
Qed.

Lemma no_messages_no_invalid (secs : dict section_value) :
  map section_message (filter invalid_section secs) = []
  <-> forallb (fun item => negb (invalid_section item)) secs = true.
Proof.
  induction secs as [|item secs IH]; simpl; [tauto|].
  destruct (invalid_section item); simpl.
  - split; discriminate.
  - exact IH.
Qed.

Lemma accepted_document_shape
      (ConfigData : Type) (file_path : string) (data : yaml_data ConfigData) :
  validate_yaml file_path (Loaded data) = [] ->
  exists t c secs, data = DataDict t c (Some (SectionsDict secs)).
Proof.
  destruct data as [t c [[secs|v]|]|v]; simpl; try discriminate.
  intros _. now exists t, c, secs.
Qed.

(** X2: [validate_yaml] returns no message exactly when the file loads to a
    mapping whose [sections] value is a mapping of sections that are all
    non-empty mappings. *)
Theorem validate_yaml_accepts_iff
        (ConfigData : Type) (file_path : string) (loaded : load_result ConfigData) :
  validate_yaml file_path loaded = []
  <-> exists t c secs,
        loaded = Loaded (DataDict t c (Some (SectionsDict secs)))
        /\ forallb (fun item => negb (invalid_section item)) secs = true.
Proof.
  split.
  - destruct loaded as [e| |[t c [[secs|v]|]|v]]; simpl; try discriminate.
    unfold items. rewrite fold_validate_step. simpl. intros H.
    exists t, c, secs. split; [reflexivity|].
    now apply no_messages_no_invalid.
  - intros [t [c [secs [-> H]]]]. simpl. unfold items.
    rewrite fold_validate_step. simpl. now apply no_messages_no_invalid.
Qed.

(** X3: a document that [validate_yaml] accepts is never rejected by
    [parse_dict] for its structure: the only error parsing can still raise
    is the one of an entry with an empty key, description or section name,
    which validation does not look for. *)
Theorem validated_document_parse_errors
        (ConfigData : Type) (from_dict : option ConfigData -> CheatSheetConfig)
        (file_path : string) (data : yaml_data ConfigData) (e : exn) :
  validate_yaml file_path (Loaded data) = [] ->
  parse_dict from_dict data = Raise e ->
  e = required_fields_error.
Proof.
  intros Hvalid Hparse.
  apply accepted_document_shape in Hvalid.
  destruct Hvalid as [t [c [secs E]]]. subst data.
  simpl in Hparse. unfold items in Hparse.
  rewrite parse_sections_collect in Hparse.
  destruct (forallb valid_entry (document_entries secs)); simpl in Hparse;
    [discriminate|].
  now inversion Hparse.
Qed.

Lemma validated_document_parse_errors_witness :
  validate_yaml "sheet.yaml" (Loaded blank_description_data) = []
  /\ parse_dict sample_from_dict blank_description_data = Raise required_fields_error
  /\ required_fields_error = required_fields_error.
Proof.
  split; [reflexivity|]. split; [reflexivity|].
  apply (validated_document_parse_errors unit sample_from_dict "sheet.yaml"
           blank_description_data required_fields_error); reflexivity.
Defined.

(* ================================================================= *)
(** ** Column layout and page template *)









(* ================================================================= *)
(** ** Errors of the flow planner *)









(* ================================================================= *)
(** ** The policies regroup the blocks of a section, nothing more *)






Lemma rows_of_header_prefix (l : list flowable) hdr_text st w h :
  flat_map table_rows (Paragraph hdr_text st :: Spacer w h :: l)
  = flat_map table_rows l.
Proof. reflexivity. Qed.






(* ================================================================= *)
(** ** The whole stream *)





(* ================================================================= *)
(** ** More on the page estimator *)






(* ================================================================= *)
(** ** Command line *)

Lemma io_bind_normal {A B : Type} (events : list event) (a : A) (k : A -> io B) :
  io_bind (events, Normal a) k = (events ++ fst (k a), snd (k a)).
Proof. unfold io_bind. now destruct (k a). Qed.

Lemma echo_each_events (messages : list string) (err : bool) :
  echo_each messages err = (map (fun m => Echo m err) messages, Normal tt).
Proof.
  induction messages as [|m messages IH]; [reflexivity|].
  cbn [echo_each]. unfold echo. rewrite io_bind_normal, IH. reflexivity.
Qed.






Section CommandLineFacts.

Context {ConfigData : Type} (from_dict : option ConfigData -> CheatSheetConfig).
Context (str_exn : io_exn -> string) (with_suffix : string -> string -> string).
Context (doc_build : BaseDocTemplate -> list flowable -> option io_exn).




End CommandLineFacts.

Section MainFacts.

Context {ConfigData : Type} (from_dict : option ConfigData -> CheatSheetConfig).
Context (str_exn : io_exn -> string) (with_suffix : string -> string -> string).
Context (doc_build : BaseDocTemplate -> list flowable -> option io_exn).

Lemma main_rejected yaml_file (loaded : load_result ConfigData) output validate est
      (e : string) (es : list string) :
  validate_yaml yaml_file loaded = e :: es ->
  main from_dict str_exn with_suffix doc_build yaml_file loaded output validate est
  = (Echo "YAML validation errors:" true
       :: map (fun error => Echo ("  - " ++ error)%string true) (e :: es),
     1%Z).
Proof.
  intros Ev. unfold main, main_try. rewrite Ev.
  unfold echo, sys_exit.
  rewrite io_bind_normal, echo_each_events, io_bind_normal.
  cbn [fst snd app]. now rewrite app_nil_r, map_map.
Qed.

(** X14: when validation reports errors, [main] writes the heading and one
    line per error, all on standard error, and exits with status 1 without
    parsing or rendering, whatever the options. *)
Theorem main_reports_validation_errors
        yaml_file (loaded : load_result ConfigData) output validate est :
  validate_yaml yaml_file loaded <> [] ->
  main from_dict str_exn with_suffix doc_build yaml_file loaded output validate est
  = (Echo "YAML validation errors:" true
       :: map (fun error => Echo ("  - " ++ error)%string true)
              (validate_yaml yaml_file loaded),
     1%Z).
Proof.
  intros Hne.
  destruct (validate_yaml yaml_file loaded) as [|e es] eqn:Ev; [contradiction|].
  now apply main_rejected.
Qed.


End MainFacts.

Section MainStatus.

Context {ConfigData : Type} (from_dict : option ConfigData -> CheatSheetConfig).
Context (str_exn : io_exn -> string) (with_suffix : string -> string -> string).
Context (doc_build : BaseDocTemplate -> list flowable -> option io_exn).

Lemma main_validate_mode yaml_file (loaded : load_result ConfigData) output est :
  validate_yaml yaml_file loaded = [] ->
  main from_dict str_exn with_suffix doc_build yaml_file loaded output true est
  = ([Echo "✓ YAML file is valid" false], 0%Z).
Proof. intros Ev. unfold main, main_try. now rewrite Ev. Qed.

Lemma main_parse_error yaml_file (data : yaml_data ConfigData) output est e :
  validate_yaml yaml_file (Loaded data) = [] ->
  parse_dict from_dict data = Raise e ->
  main from_dict str_exn with_suffix doc_build yaml_file (Loaded data) output
       false est
  = ([Echo ("Error: " ++ str_exn (CoreError e))%string true], 1%Z).
Proof.
  intros Ev Ep. unfold main, main_try. rewrite Ev.
  unfold parse_file. now rewrite Ep.
Qed.

(** X17: [--validate] does not look at the entries.  For a document that
    validation accepts but that has an entry with an empty key, description
    or section name, [main --validate] reports the file as valid and exits
    with 0, while [main] without [--validate] stops at parsing with the
    entry constructor's error, exits with 1 and renders nothing. *)
Theorem validate_option_accepts_unparsable
        yaml_file t (c : option ConfigData) secs output est :
  validate_yaml yaml_file (Loaded (DataDict t c (Some (SectionsDict secs)))) = [] ->
  forallb valid_entry (document_entries secs) = false ->
  main from_dict str_exn with_suffix doc_build yaml_file
       (Loaded (DataDict t c (Some (SectionsDict secs)))) output true est
  = ([Echo "✓ YAML file is valid" false], 0%Z)
  /\ main from_dict str_exn with_suffix doc_build yaml_file
          (Loaded (DataDict t c (Some (SectionsDict secs)))) output false est
     = ([Echo ("Error: " ++ str_exn (CoreError required_fields_error))%string true],
        1%Z).
Proof.
  intros Ev Hbad. split.
  - now apply main_validate_mode.
  - apply main_parse_error; [assumption|].
    unfold parse_dict, items. now rewrite parse_sections_collect, Hbad.
Qed.

End MainStatus.

Lemma main_reports_validation_errors_witness :
  main sample_from_dict (fun _ => "error") (fun path suffix => path ++ suffix)%string
       (fun _ _ => None) "sheet.yaml" (Loaded sample_data) None false false
  = (Echo "YAML validation errors:" true
       :: map (fun error => Echo ("  - " ++ error)%string true)
              (validate_yaml "sheet.yaml" (Loaded sample_data)),
     1%Z).
Proof.
  apply (main_reports_validation_errors sample_from_dict (fun _ => "error")
           (fun path suffix => path ++ suffix)%string (fun _ _ => None)
           "sheet.yaml" (Loaded sample_data) None false false).
  discriminate.
Defined.

Lemma validate_option_accepts_unparsable_witness :
  main sample_from_dict (fun _ => "error") (fun path suffix => path ++ suffix)%string
       (fun _ _ => None) "sheet.yaml" (Loaded blank_description_data) None true false
  = ([Echo "✓ YAML file is valid" false], 0%Z)
  /\ main sample_from_dict (fun _ => "error")
          (fun path suffix => path ++ suffix)%string
          (fun _ _ => None) "sheet.yaml" (Loaded blank_description_data) None
          false false
     = ([Echo ("Error: " ++ "error")%string true], 1%Z).
Proof.
  apply (validate_option_accepts_unparsable sample_from_dict (fun _ => "error")
           (fun path suffix => path ++ suffix)%string (fun _ _ => None)
           "sheet.yaml" (Some "Test") None
           [("Edit", SectionDict [("Ctrl+C", Description EmptyString)])]
           None false).
  - reflexivity.
  - reflexivity.
Defined.

(* ================================================================= *)
(** ** Sections that are not mappings *)

Lemma well_formed_entries_document (secs : dict section_value) :
  well_formed_entries secs = document_entries secs.
Proof.
  induction secs as [|[name value] secs IH]; [reflexivity|].
  destruct value as [entries|scalar].
  - change (well_formed_entries ((name, SectionDict entries) :: secs))
      with (flat_map (entries_of_subsection name) entries
              ++ well_formed_entries secs).
    rewrite IH. reflexivity.
  - change (well_formed_entries ((name, SectionOther scalar) :: secs))
      with (well_formed_entries secs).
    rewrite IH. reflexivity.
Qed.

(** C10: [parse_dict] never raises on a section whose value is not a
    mapping.  The loop leaves the collected entries as they are on such a
    section; the document parses exactly when every entry of the sections
    that are mappings has its required fields, the sheet then holding
    exactly those entries, in document order; and an error [parse_dict]
    raises comes from an entry of a section that is a mapping. *)
Theorem parse_dict_skips_non_mapping_sections
        (ConfigData : Type) (from_dict : option ConfigData -> CheatSheetConfig)
        (t : option string) (c : option ConfigData) (secs : dict section_value) :
  let title' := match t with Some s => s | None => "Hotkey Cheat Sheet" end in
  let parsed := parse_dict from_dict (DataDict t c (Some (SectionsDict secs))) in
  (forall hks section_name scalar,
      section_parse_step hks (section_name, SectionOther scalar) = Ok hks)
  /\ parsed
     = (if forallb valid_entry (well_formed_entries secs)
        then Ok {| sheet_title := title';
                   hotkeys := well_formed_entries secs;
                   config := set_title (from_dict c) title' |}
        else Raise required_fields_error)
  /\ (forall e, parsed = Raise e ->
        e = required_fields_error
        /\ exists h, In h (well_formed_entries secs) /\ valid_entry h = false).
Proof.
  intros title' parsed.
  assert (E : parsed
              = (if forallb valid_entry (well_formed_entries secs)
                 then Ok {| sheet_title := title';
                            hotkeys := well_formed_entries secs;
                            config := set_title (from_dict c) title' |}
                 else Raise required_fields_error)).
  { unfold parsed. rewrite well_formed_entries_document.
    simpl. unfold items. rewrite parse_sections_collect.
    now destruct (forallb valid_entry (document_entries secs)). }
  split; [reflexivity|]. split; [exact E|].
  intros e He. rewrite E in He.
  destruct (forallb valid_entry (well_formed_entries secs)) eqn:V;
    [discriminate He|].
  injection He as <-. split; [reflexivity|].
  induction (well_formed_entries secs) as [|h l IH]; [discriminate V|].
  cbn [forallb] in V. destruct (valid_entry h) eqn:Vh.
  - destruct (IH V) as [h' [Hin Hv]]. exists h'. split; [right; exact Hin|exact Hv].
  - exists h. split; [left; reflexivity|exact Vh].
Qed.

Example sample_parse_skips :
  parse_dict sample_from_dict sample_data
  = Ok {| sheet_title := "Test";
          hotkeys := well_formed_entries sample_sections;
          config := set_title sample_config "Test" |}.
Proof. reflexivity. Qed.

(* ================================================================= *)
(** ** The grouped view of a binary64 sheet *)



(* ================================================================= *)
(** ** Properties of the binary64 layer *)

Section Binary64Facts.

Import PrimFloat.
Import Binary64.
Local Open Scope Z_scope.

Context {ext : Externals}.

Lemma bind_assoc {A B C : Type} (r : result A) (f : A -> result B)
      (g : B -> result C) :
  bind (bind r f) g = bind r (fun a => bind (f a) g).
Proof. destruct r; reflexivity. Qed.

Lemma add_next_raise (addends : list (result number)) (e : exn) :
  fold_left add_next addends (Raise e) = Raise e.
Proof. induction addends as [|t l IH]; simpl; [reflexivity|exact IH]. Qed.

Lemma add_zero (x : number) :
  negative_zero x = false -> num_add x (Int 0) = Ok x.
Proof.
  destruct x as [a|f]; cbn [negative_zero num_add].
  - intros _. rewrite Z.add_0_r. reflexivity.
  - intros H. cbn. do 2 f_equal.
    rewrite <- (FloatAxioms.SF2Prim_Prim2SF (f + _)%float), FloatAxioms.add_spec.
    rewrite <- (FloatAxioms.SF2Prim_Prim2SF f) at 2. f_equal.
    change (FloatOps.Prim2SF (nearest 0)) with (SpecFloat.S754_zero false).
    destruct (FloatOps.Prim2SF f) as [[|]| | |]; try reflexivity. discriminate H.
Qed.

(** One iteration of the estimator's loop adds the subsection's addends to
    the running total, from left to right. *)
Lemma height_step_addends cfg (acc : result number) (item : string * list Hotkey) :
  bind acc (fun total => height_step cfg total item)
  = fold_left add_next (subsection_addends cfg item) acc.
Proof.
  destruct item as [name hks].
  destruct acc as [total|e]; [|symmetry; apply add_next_raise].
  unfold subsection_addends, height_step. cbn [fst snd bind].
  destruct (negb (name =? General)%string);
    cbn [app fold_left]; unfold add_next; cbn [bind].
  - destruct (num_add total (Int (font_size cfg + 8))) as [t1|e]; cbn [bind];
      [|reflexivity].
    destruct (num_mul (Int (len_of hks)) (Float (row_height cfg))) as [rows|e];
      cbn [bind]; [|reflexivity].
    destruct (num_add t1 rows) as [t2|e]; reflexivity.
  - destruct (num_mul (Int (len_of hks)) (Float (row_height cfg))) as [rows|e];
      cbn [bind]; [|reflexivity].
    destruct (num_add total rows) as [t2|e]; reflexivity.
Qed.

Lemma height_loop_addends cfg (subs : dict (list Hotkey)) :
  forall acc : result number,
  bind acc (for_each (height_step cfg) subs)
  = fold_left add_next (flat_map (subsection_addends cfg) subs) acc.
Proof.
  induction subs as [|item subs IH]; intros acc.
  - destruct acc; reflexivity.
  - cbn [for_each flat_map]. rewrite fold_left_app.
    rewrite <- height_step_addends, <- IH.
    rewrite bind_assoc. reflexivity.
Qed.

(** C2: for every subsection mapping and every configuration,
    [_estimate_section_height] returns the sum of the specification, its
    additions performed from left to right in Python's arithmetic:
    [header_font_size + 15], then for each subsection in order
    [font_size + 8] unless it is named General, the entry count times
    [row_height], and [subsection_spacing], then [section_spacing].  Where an
    integer too large for a float makes an addition or the product raise,
    the estimator raises the same exception.  The subsection named General
    has no header term: adding the integer 0 in its place would leave the
    total as it is (the float [-0.0] apart, which becomes [0.0]). *)
Theorem estimate_section_height_left_to_right
        (cfg : CheatSheetConfig) (subsections : dict (list Hotkey)) :
  _estimate_section_height cfg subsections
  = sum_from (Int (header_font_size cfg + 15))
             (flat_map (subsection_addends cfg) subsections
                ++ [Ok (Float (section_spacing cfg))])
  /\ (forall total : number,
        negative_zero total = false -> num_add total (Int 0) = Ok total).
Proof.
  split; [|exact add_zero].
  unfold _estimate_section_height, sum_from, items.
  cbn [num_add bind]. rewrite Z.add_0_l.
  rewrite fold_left_app. cbn [fold_left].
  rewrite <- (height_loop_addends cfg subsections (Ok (Int (header_font_size cfg + 15)))).
  cbn [bind].
  destruct (for_each (height_step cfg) subsections (Int (header_font_size cfg + 15)));
    reflexivity.
Qed.

(** *** Flow planner *)

Lemma unit_loop_cons {A : Type} (g : A -> result unit) (x : A) (l : list A) :
  for_each (fun _ a => g a) (x :: l) tt
  = bind (g x) (fun _ => for_each (fun _ a => g a) l tt).
Proof. cbn [for_each]. destruct (g x) as [[]|e]; reflexivity. Qed.

Lemma paragraph_check (text : string) (style : style_name) :
  paragraph text style = bind (check text) (fun _ => Ok (Paragraph text style)).
Proof. unfold paragraph, check. destruct (markup_ok text); reflexivity. Qed.

Lemma row_step_guard (data : list (list flowable)) (h : Hotkey) :
  row_step data h = bind (row_guard h) (fun _ => Ok (data ++ [hotkey_row h])).
Proof.
  unfold row_step, row_guard, hotkey_row. rewrite !paragraph_check.
  destruct (check (key_text h)) as [u|e]; cbn [bind]; [|reflexivity].
  destruct (check (desc_text h)) as [u'|e]; reflexivity.
Qed.

Lemma rows_loop_guard (hks : list Hotkey) : forall data,
  for_each row_step hks data
  = bind (for_each (fun _ h => row_guard h) hks tt)
         (fun _ => Ok (data ++ map hotkey_row hks)).
Proof.
  induction hks as [|h hks IH]; intros data.
  - cbn. rewrite app_nil_r. reflexivity.
  - rewrite unit_loop_cons. cbn [for_each map]. rewrite row_step_guard, !bind_assoc.
    destruct (row_guard h) as [u|e]; cbn [bind]; [|reflexivity].
    rewrite IH, <- app_assoc. reflexivity.
Qed.

(** The table of a subsection, as the planner's loops append it. *)
Lemma append_table_blocks cfg (content : list flowable) (hks : list Hotkey) :
  append_table cfg content hks
  = bind (table_guard cfg hks) (fun _ => Ok (content ++ table_blocks cfg hks)).
Proof.
  unfold append_table, table_guard, table_blocks, _create_hotkey_table.
  destruct hks as [|h hks].
  - cbn [bind]. rewrite app_nil_r. reflexivity.
  - destruct (_calculate_layout cfg) as [[w u]|e]; cbn [bind fst]; [|reflexivity].
    rewrite rows_loop_guard, bind_assoc.
    destruct (for_each (fun _ h0 => row_guard h0) (h :: hks) tt) as [u'|e];
      reflexivity.
Qed.

Lemma append_header_blocks (content : list flowable) (subsection_name : string) :
  append_subsection_header content subsection_name
  = bind (if negb (subsection_name =? General)%string
          then check (subsection_header_text subsection_name)
          else Ok tt)
         (fun _ => Ok (content ++ optional_header subsection_name)).
Proof.
  unfold append_subsection_header, optional_header, subsection_header_of.
  destruct (negb (subsection_name =? General)%string).
  - rewrite paragraph_check, bind_assoc. reflexivity.
  - cbn [bind]. rewrite app_nil_r. reflexivity.
Qed.

Lemma content_step_blocks cfg (acc : list flowable) (item : string * list Hotkey) :
  content_step cfg acc item
  = bind (subsection_guard cfg item)
         (fun _ => Ok (acc ++ subsection_blocks cfg item)).
Proof.
  destruct item as [name hks].
  unfold content_step, subsection_guard, subsection_blocks. cbn [fst snd].
  rewrite append_header_blocks, !bind_assoc.
  destruct (if negb (name =? General)%string
            then check (subsection_header_text name) else Ok tt) as [u|e];
    cbn [bind]; [|reflexivity].
  rewrite append_table_blocks, app_assoc. reflexivity.
Qed.

Lemma content_loop_blocks cfg (subs : dict (list Hotkey)) : forall acc,
  for_each (content_step cfg) subs acc
  = bind (subsections_guard cfg subs)
         (fun _ => Ok (acc ++ flat_map (subsection_blocks cfg) subs)).
Proof.
  unfold subsections_guard.
  induction subs as [|item subs IH]; intros acc.
  - cbn. rewrite app_nil_r. reflexivity.
  - rewrite unit_loop_cons. cbn [for_each flat_map].
    rewrite content_step_blocks, !bind_assoc.
    destruct (subsection_guard cfg item) as [u|e]; cbn [bind]; [|reflexivity].
    rewrite IH, app_assoc. reflexivity.
Qed.

Lemma wrap_length (blocks section_items : list flowable) :
  (if (0 <? List.length blocks)%nat
   then section_items ++ [KeepTogether blocks]
   else section_items)
  = section_items ++ wrap blocks.
Proof.
  destruct blocks; cbn; [rewrite app_nil_r|]; reflexivity.
Qed.

Lemma large_step_blocks cfg hdr (i : nat) (acc : list flowable)
      (item : string * list Hotkey) :
  large_step cfg hdr (i, acc) item
  = bind (subsection_guard cfg item)
         (fun _ =>
            Ok (S i,
                acc ++ wrap ((if (i =? 0)%nat
                              then [hdr; Spacer (Int 1) (Int 3)]
                              else [])
                               ++ subsection_blocks cfg item))).
Proof.
  destruct item as [name hks].
  unfold large_step, subsection_guard, subsection_blocks. cbn [fst snd].
  rewrite append_header_blocks, !bind_assoc.
  destruct (if negb (name =? General)%string
            then check (subsection_header_text name) else Ok tt) as [u|e];
    cbn [bind]; [|reflexivity].
  rewrite append_table_blocks, bind_assoc.
  destruct (table_guard cfg hks) as [u'|e]; cbn [bind]; [|reflexivity].
  rewrite wrap_length, app_assoc. reflexivity.
Qed.

Lemma large_loop_rest cfg hdr (subs : dict (list Hotkey)) : forall (i : nat) acc,
  for_each (large_step cfg hdr) subs (S i, acc)
  = bind (subsections_guard cfg subs)
         (fun _ =>
            Ok ((S i + List.length subs)%nat,
                acc ++ flat_map (fun item => wrap (subsection_blocks cfg item)) subs)).
Proof.
  unfold subsections_guard.
  induction subs as [|item subs IH]; intros i acc.
  - cbn. rewrite app_nil_r, Nat.add_0_r. reflexivity.
  - rewrite unit_loop_cons. cbn [for_each flat_map].
    rewrite large_step_blocks, !bind_assoc.
    destruct (subsection_guard cfg item) as [u|e]; cbn [bind]; [|reflexivity].
    rewrite IH. cbn [Nat.eqb app List.length].
    rewrite app_assoc, Nat.add_succ_r. reflexivity.
Qed.

Lemma large_loop_units cfg (section_name : string) (subs : dict (list Hotkey)) acc :
  for_each (large_step cfg (section_header_of section_name)) subs (0%nat, acc)
  = bind (subsections_guard cfg subs)
         (fun _ => Ok (List.length subs, acc ++ spec_units cfg section_name subs)).
Proof.
  destruct subs as [|item subs].
  - cbn. rewrite app_nil_r. reflexivity.
  - unfold subsections_guard. rewrite unit_loop_cons. cbn [for_each].
    rewrite large_step_blocks, !bind_assoc.
    destruct (subsection_guard cfg item) as [u|e]; cbn [bind]; [|reflexivity].
    rewrite large_loop_rest. unfold subsections_guard.
    cbn [Nat.eqb wrap app spec_units List.length].
    destruct (for_each (fun _ item0 => subsection_guard cfg item0) subs tt)
      as [u'|e]; cbn [bind]; [|reflexivity].
    rewrite <- app_assoc. reflexivity.
Qed.

(** The blocks of a section, by the policy of its estimated height. *)
Lemma section_step_policy cfg acc (section_name : string) (subs : dict (list Hotkey)) :
  section_step cfg acc (section_name, subs)
  = bind (_estimate_section_height cfg subs)
      (fun h =>
         bind (section_guard cfg section_name subs)
           (fun _ =>
              Ok (acc
                    ++ match policy_of h with
                       | LARGE => spec_units cfg section_name subs
                       | SMALL => [KeepTogether (spec_content cfg section_name subs)]
                       | MEDIUM => spec_content cfg section_name subs
                       end
                    ++ [Spacer (Int 1) (Float (section_spacing cfg))]))).
Proof.
  unfold section_step, section_guard, build_section_content, items, policy_of.
  destruct (_estimate_section_height cfg subs) as [h|e]; cbn [bind]; [|reflexivity].
  rewrite paragraph_check, !bind_assoc.
  destruct (check (section_header_text section_name)) as [u0|e]; cbn [bind];
    [|reflexivity].
  rewrite content_loop_blocks, bind_assoc.
  destruct (subsections_guard cfg subs) as [u|e] eqn:G; cbn [bind]; [|reflexivity].
  fold (section_header_of section_name).
  fold (spec_content cfg section_name subs).
  destruct (num_gt h 200).
  - rewrite large_loop_units, G. cbn [bind snd]. rewrite app_assoc. reflexivity.
  - destruct (num_lt h 100); cbn [bind]; rewrite app_assoc; reflexivity.
Qed.

(** The loop over the sections appends each section's blocks. *)
Lemma section_step_section_blocks cfg acc (section_name : string)
      (subs : dict (list Hotkey)) :
  section_step cfg acc (section_name, subs)
  = bind (section_blocks cfg section_name subs) (fun blocks => Ok (acc ++ blocks)).
Proof.
  unfold section_blocks. rewrite !section_step_policy.
  destruct (_estimate_section_height cfg subs) as [h|e]; cbn [bind]; [|reflexivity].
  destruct (section_guard cfg section_name subs) as [u|e]; reflexivity.
Qed.

Lemma compare_scaled (x k1 k2 p : Z) :
  0 < p -> k1 <= k2 -> (x ?= k1 * p) = Lt -> (x ?= k2 * p) = Lt.
Proof.
  intros Hp Hk H. change (x < k1 * p) in H. change (x < k2 * p).
  assert (k1 * p <= k2 * p) by (apply Z.mul_le_mono_nonneg_r; lia). lia.
Qed.

(** A height below 100 is not above 200. *)
Lemma below_100_not_above_200 (h : number) :
  num_lt h 100 = true -> num_gt h 200 = false.
Proof.
  destruct h as [a|f]; cbn [num_lt num_gt].
  - intros H. apply Z.ltb_lt in H. apply Z.ltb_ge. lia.
  - unfold float_compare_int.
    destruct (FloatOps.Prim2SF f) as [s|s| |s m e].
    + destruct (0 ?= 100) eqn:E; try discriminate. reflexivity.
    + destruct s; [reflexivity|discriminate].
    + discriminate.
    + destruct (0 <=? e) eqn:He.
      * destruct (signed s m * 2 ^ e ?= 100) eqn:E; try discriminate.
        intros _. change (signed s m * 2 ^ e < 100) in E.
        destruct (signed s m * 2 ^ e ?= 200) eqn:E'; try reflexivity.
        change (signed s m * 2 ^ e > 200) in E'. lia.
      * destruct (signed s m ?= 100 * 2 ^ (- e)) eqn:E; try discriminate.
        intros _.
        rewrite (compare_scaled (signed s m) 100 200 (2 ^ (- e))); try easy.
        apply Z.leb_gt in He. apply Z.pow_pos_nonneg; lia.
Qed.

Lemma wrap_atomic (blocks : list flowable) : forallb is_atomic (wrap blocks) = true.
Proof. destruct blocks; reflexivity. Qed.

Lemma units_atomic cfg (section_name : string) (subs : dict (list Hotkey)) :
  forallb is_atomic (spec_units cfg section_name subs) = true.
Proof.
  destruct subs as [|item subs]; [reflexivity|].
  cbn [spec_units forallb is_atomic andb].
  induction subs as [|x subs IH]; [reflexivity|].
  cbn [flat_map]. rewrite forallb_app, wrap_atomic, IH. reflexivity.
Qed.

Lemma wrap_unwrap (blocks : list flowable) : flat_map unwrap (wrap blocks) = blocks.
Proof. destruct blocks; cbn; [|rewrite app_nil_r]; reflexivity. Qed.

Lemma units_unwrap cfg (section_name : string) (subs : dict (list Hotkey)) :
  subs <> [] ->
  flat_map unwrap (spec_units cfg section_name subs)
  = spec_content cfg section_name subs.
Proof.
  destruct subs as [|item subs]; [congruence|intros _].
  unfold spec_content. cbn [spec_units flat_map unwrap].
  rewrite <- app_assoc. do 2 f_equal.
  induction subs as [|x subs IH]; [reflexivity|].
  cbn [flat_map]. rewrite flat_map_app, wrap_unwrap, IH. reflexivity.
Qed.

Lemma table_blocks_flowable cfg (hks : list Hotkey) :
  forallb (fun b => negb (is_atomic b)) (table_blocks cfg hks) = true.
Proof.
  unfold table_blocks.
  destruct hks; [reflexivity|].
  destruct (_calculate_layout cfg) as [[w u]|e]; reflexivity.
Qed.

Lemma subsections_flowable cfg (subs : dict (list Hotkey)) :
  forallb (fun b => negb (is_atomic b)) (flat_map (subsection_blocks cfg) subs) = true.
Proof.
  induction subs as [|[name hks] subs IH]; [reflexivity|].
  cbn [flat_map]. rewrite forallb_app, IH, andb_true_r.
  unfold subsection_blocks, optional_header. cbn [fst snd].
  rewrite forallb_app, table_blocks_flowable.
  destruct (negb (name =? General)%string); reflexivity.
Qed.

Lemma content_flowable cfg (section_name : string) (subs : dict (list Hotkey)) :
  forallb (fun b => negb (is_atomic b)) (spec_content cfg section_name subs) = true.
Proof.
  unfold spec_content, section_header_of.
  cbn [app forallb is_atomic negb andb].
  apply subsections_flowable.
Qed.

(** When the blocks of a section with entries can be built, the layout can
    be computed. *)
Lemma guard_layout cfg (subs : dict (list Hotkey)) (u : unit) :
  subsections_guard cfg subs = Ok u ->
  existsb has_entries subs = true ->
  exists layout, _calculate_layout cfg = Ok layout.
Proof.
  unfold subsections_guard.
  induction subs as [|[name hks] subs IH]; [discriminate 2|].
  rewrite unit_loop_cons. cbn [existsb]. intros G E.
  destruct (subsection_guard cfg (name, hks)) as [u'|e] eqn:S; [|discriminate G].
  cbn [bind] in G.
  destruct (has_entries (name, hks)) eqn:H; [|exact (IH G E)].
  unfold subsection_guard, table_guard in S. cbn [fst snd] in S.
  destruct hks as [|h hks]; [discriminate H|].
  destruct (if negb (name =? General)%string
            then check (subsection_header_text name) else Ok tt);
    [|discriminate S].
  cbn [bind] in S.
  destruct (_calculate_layout cfg) as [l|e]; [exists l; reflexivity|discriminate S].
Qed.

Lemma units_one_per_subsection cfg (section_name : string)
      (subs : dict (list Hotkey)) (u : unit) :
  subsections_guard cfg subs = Ok u ->
  forallb has_entries subs = true ->
  List.length (spec_units cfg section_name subs) = List.length subs.
Proof.
  destruct subs as [|item subs]; [reflexivity|].
  intros G A. cbn [forallb] in A. apply andb_prop in A. destruct A as [A1 A2].
  destruct (guard_layout cfg (item :: subs) u G) as [[w uh] L].
  { cbn [existsb]. rewrite A1. reflexivity. }
  cbn [spec_units List.length]. f_equal.
  clear G A1. induction subs as [|[name hks] subs IH]; [reflexivity|].
  cbn [forallb] in A2. apply andb_prop in A2. destruct A2 as [A A2].
  cbn [flat_map]. rewrite length_app, (IH A2).
  unfold subsection_blocks, table_blocks. cbn [fst snd]. rewrite L.
  destruct hks as [|h hks]; [discriminate A|].
  destruct (optional_header name); reflexivity.
Qed.

(** C1: routing of a section on its estimated height.  The planner raises
    when the estimate raises, and when a block of the section cannot be
    built (a markup text the paragraph parser rejects, the layout of a
    table).  Otherwise the section's content is its header and spacer
    followed by every subsection's optional header, table and spacer, and
    the planner emits, followed by a spacer of [section_spacing]:
    for [h > 200] (LARGE) one atomic unit per subsection, the first also
    holding the section header and its spacer, the units holding the content
    in order;
    for [h < 100] (SMALL) one atomic unit holding the content;
    for every other height, 100 and 200 included (MEDIUM), the content
    itself, none of its blocks atomic. *)
Theorem flow_policy_by_height
        (cfg : CheatSheetConfig) (section_name : string)
        (subsections : dict (list Hotkey)) :
  let content := spec_content cfg section_name subsections in
  let units := spec_units cfg section_name subsections in
  let trailing := Spacer (Int 1) (Float (section_spacing cfg)) in
  match _estimate_section_height cfg subsections,
        section_guard cfg section_name subsections with
  | Raise e, _ | Ok _, Raise e =>
      section_blocks cfg section_name subsections = Raise e
  | Ok h, Ok _ =>
      build_section_content cfg (section_header_of section_name) subsections
      = Ok content
      /\ (policy_of h = LARGE <-> num_gt h 200 = true)
      /\ (policy_of h = SMALL <-> num_lt h 100 = true)
      /\ (policy_of h = MEDIUM <-> num_gt h 200 = false /\ num_lt h 100 = false)
      /\ match policy_of h with
         | LARGE =>
             section_blocks cfg section_name subsections = Ok (units ++ [trailing])
             /\ forallb is_atomic units = true
             /\ (subsections <> [] -> flat_map unwrap units = content)
             /\ (forallb has_entries subsections = true ->
                 List.length units = List.length subsections)
         | SMALL =>
             section_blocks cfg section_name subsections
             = Ok [KeepTogether content; trailing]
         | MEDIUM =>
             section_blocks cfg section_name subsections
             = Ok (content ++ [trailing])
             /\ forallb (fun b => negb (is_atomic b)) content = true
         end
  end.
Proof.
  intros content units trailing.
  unfold section_blocks. rewrite section_step_policy.
  destruct (_estimate_section_height cfg subsections) as [h|e]; cbn [bind];
    [|destruct (section_guard cfg section_name subsections); reflexivity].
  destruct (section_guard cfg section_name subsections) as [u|e] eqn:G; cbn [bind];
    [|reflexivity].
  unfold section_guard in G.
  destruct (check (section_header_text section_name)) as [u0|e]; [|discriminate G].
  cbn [bind] in G.
  split.
  { unfold build_section_content, items. rewrite content_loop_blocks, G.
    reflexivity. }
  pose proof (below_100_not_above_200 h) as X.
  unfold policy_of.
  destruct (num_gt h 200) eqn:Hgt; [|destruct (num_lt h 100) eqn:Hlt].
  - split; [easy|]. split; [split; [discriminate|]|].
    { intros Hlt. specialize (X Hlt). discriminate X. }
    split; [split; [discriminate|intros [H _]; discriminate H]|].
    split; [reflexivity|]. split; [apply units_atomic|].
    split; [apply units_unwrap|].
    apply (units_one_per_subsection cfg section_name subsections u G).
  - split; [split; discriminate|]. split; [easy|].
    split; [split; [discriminate|intros [_ H]; discriminate H]|].
    reflexivity.
  - split; [split; discriminate|]. split; [split; discriminate|].
    split; [easy|]. split; [reflexivity|apply content_flowable].
Qed.

(** *** Page estimator *)

Lemma converts_float_of_int (z : Z) :
  converts z = true -> float_of_int z = Ok (nearest z).
Proof. unfold float_of_int. intros ->. reflexivity. Qed.

Lemma converts_smaller (a b : Z) :
  Z.abs a <= Z.abs b -> converts b = true -> converts a = true.
Proof.
  unfold converts. intros H Hb. apply Z.ltb_lt in Hb. apply Z.ltb_lt. lia.
Qed.

Lemma ceil_finite (q : float) : finite q = true -> exists pages, ceil q = Ok pages.
Proof.
  unfold finite, ceil.
  destruct (FloatOps.Prim2SF q) as [s|s| |s m e]; try discriminate; intros _;
    eexists; reflexivity.
Qed.

Lemma ceil_not_finite (q : float) :
  finite q = false -> ceil q = Raise OverflowError \/ ceil q = Raise ValueError.
Proof.
  unfold finite, ceil.
  destruct (FloatOps.Prim2SF q) as [s|s| |s m e]; try discriminate; intros _;
    [left|right]; reflexivity.
Qed.

(** The outcome of [estimate_pages] once the layout and the conversions of
    the counts succeed. *)
Lemma estimate_pages_outcome (sheet : CheatSheet) :
  let cfg := config sheet in
  let sections := get_sections sheet in
  let n_sections := of_len (len sections) in
  let n_subsections := Z.of_nat (count_subsections sections) in
  let n_entries := of_len (List.length (hotkeys sheet)) in
  1 <= columns cfg ->
  converts ((columns cfg - 1) * 15) = true ->
  converts n_entries = true ->
  converts (30 + n_sections * 15 + n_subsections * 12) = true ->
  estimate_pages sheet
  = if ((page_height - 2 * margin cfg) =? 0)%float
    then Raise ZeroDivisionError
    else pages <~ ceil (spec_quotient cfg n_sections n_subsections n_entries) ;;
         Ok (Z.max 1 pages).
Proof.
  intros cfg sections n_sections n_subsections n_entries Hcol Hgaps Hn Hheaders.
  assert (Hc : converts (columns cfg) = true).
  { destruct (Z.eq_dec (columns cfg) 1) as [->|Hne]; [reflexivity|].
    apply (converts_smaller _ ((columns cfg - 1) * 15)); [lia|exact Hgaps]. }
  assert (Hs : converts n_sections = true).
  { apply (converts_smaller _ (30 + n_sections * 15 + n_subsections * 12));
      [unfold n_sections, n_subsections, of_len; lia|exact Hheaders]. }
  assert (Hz : (columns cfg =? 0) = false) by (apply Z.eqb_neq; lia).
  unfold estimate_pages, _calculate_layout, fdiv_int, fdiv.
  fold cfg. fold sections. rewrite Zsum_subsections.
  fold n_sections. fold n_subsections. fold n_entries.
  rewrite (converts_float_of_int _ Hgaps), (converts_float_of_int _ Hc), Hz.
  cbn [bind snd].
  rewrite (converts_float_of_int _ Hn), (converts_float_of_int _ Hs),
    (converts_float_of_int _ Hheaders).
  cbn [bind].
  destruct ((page_height - 2 * margin cfg) =? 0)%float; reflexivity.
Qed.

(** C3, as the code has it: for a document with at least one column,
    whose counts and column gaps are integers within the range of a float,
    [estimate_pages] divides the total height of the specification,
    computed in binary64 from left to right, by the columns and by the
    usable height [page_height - 2 * margin].  When the usable height is
    zero it raises [ZeroDivisionError].  Otherwise, when the quotient is
    finite it returns the maximum of 1 and the ceiling of the quotient, at
    least 1, also for a document without entries; when the quotient is
    infinite or not a number, [math.ceil] raises [OverflowError] or
    [ValueError]. *)
Theorem estimate_pages_formula_binary64 (sheet : CheatSheet) :
  let cfg := config sheet in
  let sections := get_sections sheet in
  let n_sections := of_len (len sections) in
  let n_subsections := Z.of_nat (count_subsections sections) in
  let n_entries := of_len (List.length (hotkeys sheet)) in
  let usable_height := (page_height - 2 * margin cfg)%float in
  let q := spec_quotient cfg n_sections n_subsections n_entries in
  1 <= columns cfg ->
  converts ((columns cfg - 1) * 15) = true ->
  converts n_entries = true ->
  converts (30 + n_sections * 15 + n_subsections * 12) = true ->
  ((usable_height =? 0)%float = true ->
   estimate_pages sheet = Raise ZeroDivisionError)
  /\ ((usable_height =? 0)%float = false -> finite q = true ->
      exists pages,
        ceil q = Ok pages
        /\ estimate_pages sheet = Ok (Z.max 1 pages)
        /\ 1 <= Z.max 1 pages)
  /\ ((usable_height =? 0)%float = false -> finite q = false ->
      estimate_pages sheet = Raise OverflowError
      \/ estimate_pages sheet = Raise ValueError).
Proof.
  intros cfg sections n_sections n_subsections n_entries usable_height q
         Hcol Hgaps Hn Hheaders.
  pose proof (estimate_pages_outcome sheet Hcol Hgaps Hn Hheaders) as E.
  cbv zeta in E. fold cfg sections n_sections n_subsections n_entries in E.
  fold usable_height q in E.
  split; [|split].
  - intros Hu. rewrite E, Hu. reflexivity.
  - intros Hu Hq. rewrite E, Hu.
    destruct (ceil_finite q Hq) as [pages Hpages].
    exists pages. rewrite Hpages. split; [reflexivity|]. split; [reflexivity|lia].
  - intros Hu Hq. rewrite E, Hu.
    destruct (ceil_not_finite q Hq) as [H|H]; rewrite H; [left|right]; reflexivity.
Qed.

(** *** Subsections and their entries *)










End Binary64Facts.

(* ================================================================= *)
(** ** The binary64 layer on the sample data *)

Section Binary64Examples.

Import PrimFloat.
Import Binary64.
Local Open Scope Z_scope.

Local Existing Instance sample_externals.

(** The estimate of a section of three entries without a subsection, with
    row height 8.7 and spacings 18.6 and 28.3: the additions round, and the
    result is below 100, where the exact sum of the terms is 100. *)
Example estimate_section_height_rounds :
  _estimate_section_height tenths_config three_general
  = Ok (Float 99.99999999999999)
  /\ num_lt (Float 99.99999999999999) 100 = true.
Proof. split; reflexivity. Qed.

(** That section is emitted as one atomic unit. *)
Example rounded_height_routes_small :
  section_blocks tenths_config "Edit" three_general
  = Ok [KeepTogether (spec_content tenths_config "Edit" three_general);
        Spacer (Int 1) (Float 28.3)].
Proof. reflexivity. Qed.

(** The section Edit of the sample entries at four heights: 100 and 200
    flow freely, 200.01 gives one atomic unit per subsection, 99.99 one
    atomic unit in all. *)
Lemma flow_policy_by_height_witness :
  let hdr := section_header_of "Edit" in
  let gap := Spacer (Int 1) (Int 3) in
  let clipboard := ("Clipboard", [ hk "Ctrl+C" "Copy" "Edit" "Clipboard";
                                   hk "Ctrl+V" "Paste" "Edit" "Clipboard" ]) in
  let general := ("General", [ hk "Ctrl+Z" "Undo" "Edit" EmptyString ]) in
  let blocks cfg := section_blocks cfg "Edit" edit_subsections in
  let height cfg := _estimate_section_height cfg edit_subsections in
  (height (sized_config 14 8) = Ok (Float 100)
   /\ blocks (sized_config 14 8)
      = Ok ([hdr; gap]
              ++ subsection_blocks (sized_config 14 8) clipboard
              ++ subsection_blocks (sized_config 14 8) general
              ++ [Spacer (Int 1) (Float 8)]))
  /\ (height (sized_config 48 6) = Ok (Float 200)
      /\ blocks (sized_config 48 6)
         = Ok ([hdr; gap]
                 ++ subsection_blocks (sized_config 48 6) clipboard
                 ++ subsection_blocks (sized_config 48 6) general
                 ++ [Spacer (Int 1) (Float 6)]))
  /\ (height (sized_config 47.5 7.51) = Ok (Float 200.01)
      /\ blocks (sized_config 47.5 7.51)
         = Ok [KeepTogether
                 ([hdr; gap] ++ subsection_blocks (sized_config 47.5 7.51) clipboard);
               KeepTogether (subsection_blocks (sized_config 47.5 7.51) general);
               Spacer (Int 1) (Float 7.51)])
  /\ (height (sized_config 14 7.99) = Ok (Float 99.99)
      /\ blocks (sized_config 14 7.99)
         = Ok [KeepTogether
                 ([hdr; gap]
                    ++ subsection_blocks (sized_config 14 7.99) clipboard
                    ++ subsection_blocks (sized_config 14 7.99) general);
               Spacer (Int 1) (Float 7.99)]).
Proof.
  intros hdr gap clipboard general blocks height.
  pose proof (flow_policy_by_height (sized_config 14 8) "Edit" edit_subsections) as H1.
  pose proof (flow_policy_by_height (sized_config 48 6) "Edit" edit_subsections) as H2.
  pose proof (flow_policy_by_height (sized_config 47.5 7.51) "Edit" edit_subsections)
    as H3.
  pose proof (flow_policy_by_height (sized_config 14 7.99) "Edit" edit_subsections)
    as H4.
  vm_compute in H1, H2, H3, H4.
  split; [split; [reflexivity|]|split; [split; [reflexivity|]|split; split;
    [reflexivity| |reflexivity|]]].
  - exact (proj1 (proj2 (proj2 (proj2 (proj2 H1))))).
  - exact (proj1 (proj2 (proj2 (proj2 (proj2 H2))))).
  - exact (proj1 (proj2 (proj2 (proj2 (proj2 H3))))).
  - exact (proj2 (proj2 (proj2 (proj2 H4)))).
Defined.

(** The blocks of the first unit of policy LARGE and of the content, spelt
    out: the header of Clipboard is followed by the table of its entries. *)
Example clipboard_blocks :
  subsection_blocks sample_config
    ("Clipboard", [ hk "Ctrl+C" "Copy" "Edit" "Clipboard";
                    hk "Ctrl+V" "Paste" "Edit" "Clipboard" ])
  = [ Paragraph "<i>Clipboard</i>" style_subsection_header;
      Table [ [ Paragraph "<font name='Courier-Bold'>Ctrl+C</font>" style_hotkey;
                Paragraph "Copy" style_hotkey ];
              [ Paragraph "<font name='Courier-Bold'>Ctrl+V</font>" style_hotkey;
                Paragraph "Paste" style_hotkey ] ]
            [ 52.63228346456694%float; 97.7456692913386%float ];
      Spacer (Int 1) (Float 4) ].
Proof. reflexivity. Qed.

(** The stream of the sample sheet: title, spacer, and the two sections,
    each below 100 and so one atomic unit, each followed by its spacer. *)
Example sample_stream :
  _build_content sample_sheet
  = Ok [ Paragraph "Test" style_title; Spacer (Int 1) (Int 12);
         KeepTogether (spec_content sample_config "Edit" edit_subsections);
         Spacer (Int 1) (Float 8);
         KeepTogether
           (spec_content sample_config "File"
              [("General", [hk "Ctrl+S" "Save" "File" EmptyString])]);
         Spacer (Int 1) (Float 8) ].
Proof. reflexivity. Qed.

(** A section whose header the paragraph parser rejects. *)
Example rejected_markup_raises :
  section_blocks (ext := strict_externals) sample_config "<" three_general
  = Raise ValueError.
Proof. reflexivity. Qed.

Lemma estimate_pages_formula_binary64_witness :
  exists pages,
    ceil (spec_quotient sample_config 0 0 0) = Ok pages
    /\ estimate_pages (empty_sheet sample_config) = Ok (Z.max 1 pages)
    /\ 1 <= Z.max 1 pages.
Proof.
  refine (proj1 (proj2
    (estimate_pages_formula_binary64 (empty_sheet sample_config) _ _ _ _)) _ _);
    try reflexivity.
  simpl. lia.
Defined.

Example estimate_pages_sample_binary64 :
  estimate_pages sample_sheet = Ok 1
  /\ estimate_pages (empty_sheet sample_config) = Ok 1.
Proof. split; reflexivity. Qed.

(** C3 fails as stated: with five columns, [estimate_pages] returns no page
    count when the margin is half the page height (the usable height is
    zero and the division raises), when the total height overflows (four
    entries of row height 1e308: [math.ceil] raises on the infinite
    quotient), and when the margin is not a number. *)
Lemma estimate_pages_raises_binary64 :
  let sheet cfg :=
    {| sheet_title := "Test"; hotkeys := sample_hotkeys; config := cfg |} in
  1 <= columns (margin_config 297.6377952755906)
  /\ estimate_pages (sheet (margin_config 297.6377952755906))
     = Raise ZeroDivisionError
  /\ 1 <= columns (sized_config 1e308 8)
  /\ estimate_pages (sheet (sized_config 1e308 8)) = Raise OverflowError
  /\ 1 <= columns (margin_config nan)
  /\ estimate_pages (sheet (margin_config nan)) = Raise ValueError.
Proof.
  cbv zeta. repeat split; try reflexivity; simpl; lia.
Qed.


End Binary64Examples.
